(** * Hotel / customer / reservation stores: a shallow embedding

    The Python program keeps three JSON files, [data/customers.json],
    [data/hotels.json] and [data/reservations.json].  Every public
    operation reloads the file(s) it needs, changes the loaded dictionary
    in memory and writes the whole dictionary back.

    The embedding below follows the code operation by operation:

    - a file is the dictionary that [json.load] returns for it, a
      [gmap string _] (a file that does not exist yet loads as the empty
      dictionary, which is what [_load_*] returns for it);
    - a stored entry is a record with exactly the keys that [to_dict]
      writes; integers are Python integers, hence [Z];
    - [print] appends a line to the standard output, which is part of the
      world, so that the different failure messages remain observable
      although the Python functions only return [False] or [None];
    - reads and writes of the files succeed (the [OSError] and
      [JSONDecodeError] branches of the loaders are not entered);
    - [uuid.uuid4()] is the only source of randomness: the eight
      characters kept by [create_reservation] are an explicit argument. *)

From Stdlib Require Import ZArith String List Lia.
From stdpp Require Import gmap strings fin_maps pretty.

Local Open Scope string_scope.
Local Open Scope Z_scope.

(** ** Stored dictionaries *)

(** The value of [Hotel.to_dict]: what [hotels.json] holds per hotel. *)
Module HotelDict.
Record t : Type := mk
  { hotel_id : string;
    name : string;
    location : string;
    total_rooms : Z;
    available_rooms : Z }.

(** [d["name"] = v] *)
Definition set_name (v : string) (d : t) : t :=
  mk (hotel_id d) v (location d) (total_rooms d) (available_rooms d).
(** [d["location"] = v] *)
Definition set_location (v : string) (d : t) : t :=
  mk (hotel_id d) (name d) v (total_rooms d) (available_rooms d).
(** [d["total_rooms"] = v] *)
Definition set_total_rooms (v : Z) (d : t) : t :=
  mk (hotel_id d) (name d) (location d) v (available_rooms d).
(** [d["available_rooms"] = v] *)
Definition set_available_rooms (v : Z) (d : t) : t :=
  mk (hotel_id d) (name d) (location d) (total_rooms d) v.
End HotelDict.

(** The value of [Customer.to_dict]. *)
Module CustomerDict.
Record t : Type := mk
  { customer_id : string;
    name : string;
    email : string;
    phone : string }.

Definition set_name (v : string) (d : t) : t :=
  mk (customer_id d) v (email d) (phone d).
Definition set_email (v : string) (d : t) : t :=
  mk (customer_id d) (name d) v (phone d).
Definition set_phone (v : string) (d : t) : t :=
  mk (customer_id d) (name d) (email d) v.
End CustomerDict.

(** The value of [Reservation.to_dict]. *)
Module ReservationDict.
Record t : Type := mk
  { reservation_id : string;
    customer_id : string;
    hotel_id : string;
    check_in : string;
    check_out : string }.
End ReservationDict.

(** A dictionary as [Hotel.from_dict] reads it: the four keys it reads
    with [data[...]] and [available_rooms], which it reads with
    [data.get] and may therefore be missing. *)
Module HotelData.
Record t : Type := mk
  { hotel_id : string;
    name : string;
    location : string;
    total_rooms : Z;
    available_rooms : option Z }.

(** A stored dictionary has all five keys. *)
Definition of_dict (d : HotelDict.t) : t :=
  mk (HotelDict.hotel_id d) (HotelDict.name d) (HotelDict.location d)
     (HotelDict.total_rooms d) (Some (HotelDict.available_rooms d)).
End HotelData.

(** ** The world: three files and the standard output *)

Record World : Type := mkWorld
  { customers_file : gmap string CustomerDict.t;
    hotels_file : gmap string HotelDict.t;
    reservations_file : gmap string ReservationDict.t;
    stdout : list string }.

(** ** A state monad over the world *)

Definition IO (A : Type) : Type := World -> A * World.

#[global] Instance IO_ret : MRet IO := fun A (a : A) (w : World) => (a, w).
#[global] Instance IO_bind : MBind IO :=
  fun A B (k : A -> IO B) (m : IO A) (w : World) =>
    let (a, w') := m w in k a w'.

(** [print(s)] *)
Definition print (s : string) : IO unit :=
  fun w => (tt, mkWorld (customers_file w) (hotels_file w)
                        (reservations_file w) (stdout w ++ [s])).

(** Python truthiness of a string: only the empty string is falsy. *)
Definition truthy (s : string) : bool :=
  match s with
  | EmptyString => false
  | String _ _ => true
  end.

(** [if v: d[key] = v], for a keyword argument whose default is [None]
    ([None] is falsy as well). *)
Definition assign_if_truthy {D : Type} (set : string -> D -> D)
    (v : option string) (d : D) : D :=
  match v with
  | None => d
  | Some s => if truthy s then set s d else d
  end.

(** ** hotel.py *)

Module Hotel.
Import HotelDict.

(** A [Hotel] instance. *)
Record t : Type := mk
  { hotel_id : string;
    name : string;
    location : string;
    total_rooms : Z;
    available_rooms : Z }.

Definition _load_hotels : IO (gmap string HotelDict.t) :=
  fun w => (hotels_file w, w).

Definition _save_hotels (hotels : gmap string HotelDict.t) : IO unit :=
  fun w => (tt, mkWorld (customers_file w) hotels
                        (reservations_file w) (stdout w)).

(** [Hotel(hotel_id, name, location, total_rooms)] *)
Definition __init__ (hotel_id name location : string) (total_rooms : Z) : t :=
  mk hotel_id name location total_rooms total_rooms.

Definition to_dict (self : t) : HotelDict.t :=
  HotelDict.mk (hotel_id self) (name self) (location self)
               (total_rooms self) (available_rooms self).

Definition create_hotel (hotel_id name location : string) (total_rooms : Z)
  : IO (option t) :=
  hotels ← _load_hotels;
  match hotels !! hotel_id with
  | Some _ =>
      print ("Error: Hotel with ID '" +:+ hotel_id +:+ "' already exists.");;
      mret None
  | None =>
      let hotel := __init__ hotel_id name location total_rooms in
      _save_hotels (<[hotel_id := to_dict hotel]> hotels);;
      print ("Hotel '" +:+ name +:+ "' created successfully.");;
      mret (Some hotel)
  end.

Definition delete_hotel (hotel_id : string) : IO bool :=
  hotels ← _load_hotels;
  match hotels !! hotel_id with
  | None =>
      print ("Error: Hotel with ID '" +:+ hotel_id +:+ "' not found.");;
      mret false
  | Some _ =>
      _save_hotels (delete hotel_id hotels);;
      print ("Hotel '" +:+ hotel_id +:+ "' deleted successfully.");;
      mret true
  end.

(** The [if total_rooms is not None:] block of [modify_hotel]. *)
Definition apply_total_rooms (total_rooms : option Z) (d : HotelDict.t)
  : HotelDict.t :=
  match total_rooms with
  | None => d
  | Some n =>
      let diff := n - HotelDict.total_rooms d in
      let d1 := set_total_rooms n d in
      set_available_rooms (Z.max 0 (HotelDict.available_rooms d1 + diff)) d1
  end.

Definition modify_hotel (hotel_id : string) (name location : option string)
    (total_rooms : option Z) : IO bool :=
  hotels ← _load_hotels;
  match hotels !! hotel_id with
  | None =>
      print ("Error: Hotel with ID '" +:+ hotel_id +:+ "' not found.");;
      mret false
  | Some d =>
      let d1 := assign_if_truthy set_name name d in
      let d2 := assign_if_truthy set_location location d1 in
      let d3 := apply_total_rooms total_rooms d2 in
      _save_hotels (<[hotel_id := d3]> hotels);;
      print ("Hotel '" +:+ hotel_id +:+ "' modified successfully.");;
      mret true
  end.

Definition reserve_room (hotel_id : string) : IO bool :=
  hotels ← _load_hotels;
  match hotels !! hotel_id with
  | None =>
      print ("Error: Hotel with ID '" +:+ hotel_id +:+ "' not found.");;
      mret false
  | Some d =>
      if HotelDict.available_rooms d <=? 0 then
        print ("Error: No available rooms in hotel '" +:+ hotel_id +:+ "'.");;
        mret false
      else
        _save_hotels
          (<[hotel_id :=
               set_available_rooms (HotelDict.available_rooms d - 1) d]>
             hotels);;
        mret true
  end.

Definition cancel_room (hotel_id : string) : IO bool :=
  hotels ← _load_hotels;
  match hotels !! hotel_id with
  | None =>
      print ("Error: Hotel with ID '" +:+ hotel_id +:+ "' not found.");;
      mret false
  | Some d =>
      let avail := HotelDict.available_rooms d in
      let total := HotelDict.total_rooms d in
      if avail >=? total then
        print ("Error: All rooms already available in hotel '"
               +:+ hotel_id +:+ "'.");;
        mret false
      else
        _save_hotels
          (<[hotel_id :=
               set_available_rooms (HotelDict.available_rooms d + 1) d]>
             hotels);;
        mret true
  end.

(** [hotel.available_rooms = v] *)
Definition set_self_available_rooms (v : Z) (self : t) : t :=
  mk (hotel_id self) (name self) (location self) (total_rooms self) v.

Definition from_dict (data : HotelData.t) : t :=
  let hotel :=
    __init__ (HotelData.hotel_id data) (HotelData.name data)
             (HotelData.location data) (HotelData.total_rooms data) in
  set_self_available_rooms
    (default (HotelData.total_rooms data) (HotelData.available_rooms data))
    hotel.

Definition display_hotel (hotel_id : string) : IO (option t) :=
  hotels ← _load_hotels;
  match hotels !! hotel_id with
  | None =>
      print ("Error: Hotel with ID '" +:+ hotel_id +:+ "' not found.");;
      mret None
  | Some data =>
      print "--- Hotel Info ---";;
      print ("ID       : " +:+ HotelDict.hotel_id data);;
      print ("Name     : " +:+ HotelDict.name data);;
      print ("Location : " +:+ HotelDict.location data);;
      let avail := HotelDict.available_rooms data in
      let total := HotelDict.total_rooms data in
      print ("Rooms    : " +:+ pretty avail +:+ "/" +:+ pretty total
             +:+ " available");;
      mret (Some (from_dict (HotelData.of_dict data)))
  end.
End Hotel.

(** ** customer.py *)

Module Customer.
Import CustomerDict.

(** A [Customer] instance. *)
Record t : Type := mk
  { customer_id : string;
    name : string;
    email : string;
    phone : string }.

Definition _load_customers : IO (gmap string CustomerDict.t) :=
  fun w => (customers_file w, w).

Definition _save_customers (customers : gmap string CustomerDict.t)
  : IO unit :=
  fun w => (tt, mkWorld customers (hotels_file w)
                        (reservations_file w) (stdout w)).

Definition __init__ (customer_id name email phone : string) : t :=
  mk customer_id name email phone.

Definition to_dict (self : t) : CustomerDict.t :=
  CustomerDict.mk (customer_id self) (name self) (email self) (phone self).

Definition create_customer (customer_id name email phone : string)
  : IO (option t) :=
  customers ← _load_customers;
  match customers !! customer_id with
  | Some _ =>
      print ("Error: Customer with ID '" +:+ customer_id
             +:+ "' already exists.");;
      mret None
  | None =>
      let customer := __init__ customer_id name email phone in
      _save_customers (<[customer_id := to_dict customer]> customers);;
      print ("Customer '" +:+ name +:+ "' created successfully.");;
      mret (Some customer)
  end.

Definition delete_customer (customer_id : string) : IO bool :=
  customers ← _load_customers;
  match customers !! customer_id with
  | None =>
      print ("Error: Customer with ID '" +:+ customer_id +:+ "' not found.");;
      mret false
  | Some _ =>
      _save_customers (delete customer_id customers);;
      print ("Customer '" +:+ customer_id +:+ "' deleted successfully.");;
      mret true
  end.

Definition modify_customer (customer_id : string)
    (name email phone : option string) : IO bool :=
  customers ← _load_customers;
  match customers !! customer_id with
  | None =>
      print ("Error: Customer with ID '" +:+ customer_id +:+ "' not found.");;
      mret false
  | Some d =>
      let d1 := assign_if_truthy set_name name d in
      let d2 := assign_if_truthy set_email email d1 in
      let d3 := assign_if_truthy set_phone phone d2 in
      _save_customers (<[customer_id := d3]> customers);;
      print ("Customer '" +:+ customer_id +:+ "' modified successfully.");;
      mret true
  end.

Definition from_dict (data : CustomerDict.t) : t :=
  mk (CustomerDict.customer_id data) (CustomerDict.name data)
     (CustomerDict.email data) (CustomerDict.phone data).

Definition display_customer (customer_id : string) : IO (option t) :=
  customers ← _load_customers;
  match customers !! customer_id with
  | None =>
      print ("Error: Customer with ID '" +:+ customer_id +:+ "' not found.");;
      mret None
  | Some data =>
      print "--- Customer Info ---";;
      print ("ID    : " +:+ CustomerDict.customer_id data);;
      print ("Name  : " +:+ CustomerDict.name data);;
      print ("Email : " +:+ CustomerDict.email data);;
      print ("Phone : " +:+ CustomerDict.phone data);;
      mret (Some (from_dict data))
  end.
End Customer.

(** ** reservation.py *)

Module Reservation.
Import ReservationDict.

(** A [Reservation] instance. *)
Record t : Type := mk
  { reservation_id : string;
    customer_id : string;
    hotel_id : string;
    check_in : string;
    check_out : string }.

Definition _load_reservations : IO (gmap string ReservationDict.t) :=
  fun w => (reservations_file w, w).

Definition _save_reservations
    (reservations : gmap string ReservationDict.t) : IO unit :=
  fun w => (tt, mkWorld (customers_file w) (hotels_file w)
                        reservations (stdout w)).

(** The module's own readers of the two other files. *)
Definition _load_customers : IO (gmap string CustomerDict.t) :=
  fun w => (customers_file w, w).

Definition _load_hotels : IO (gmap string HotelDict.t) :=
  fun w => (hotels_file w, w).

Definition __init__
    (reservation_id customer_id hotel_id check_in check_out : string) : t :=
  mk reservation_id customer_id hotel_id check_in check_out.

Definition to_dict (self : t) : ReservationDict.t :=
  ReservationDict.mk (reservation_id self) (customer_id self)
                     (hotel_id self) (check_in self) (check_out self).

(** [uuid8] is the value of [str(uuid.uuid4())[:8]] drawn by this call. *)
Definition create_reservation
    (customer_id hotel_id check_in check_out : string) (uuid8 : string)
  : IO (option t) :=
  customers ← _load_customers;
  match customers !! customer_id with
  | None =>
      print ("Error: Customer '" +:+ customer_id +:+ "' not found.");;
      mret None
  | Some _ =>
      hotels ← _load_hotels;
      match hotels !! hotel_id with
      | None =>
          print ("Error: Hotel '" +:+ hotel_id +:+ "' not found.");;
          mret None
      | Some _ =>
          reserved ← Hotel.reserve_room hotel_id;
          if negb reserved then mret None
          else
            let reservation_id := uuid8 in
            let reservation :=
              __init__ reservation_id customer_id hotel_id
                       check_in check_out in
            reservations ← _load_reservations;
            _save_reservations
              (<[reservation_id := to_dict reservation]> reservations);;
            print ("Reservation '" +:+ reservation_id +:+ "' created: "
                   +:+ "Customer '" +:+ customer_id
                   +:+ "' at Hotel '" +:+ hotel_id +:+ "'.");;
            mret (Some reservation)
      end
  end.

Definition cancel_reservation (reservation_id : string) : IO bool :=
  reservations ← _load_reservations;
  match reservations !! reservation_id with
  | None =>
      print ("Error: Reservation '" +:+ reservation_id +:+ "' not found.");;
      mret false
  | Some r =>
      let hotel_id := ReservationDict.hotel_id r in
      Hotel.cancel_room hotel_id;;
      _save_reservations (delete reservation_id reservations);;
      print ("Reservation '" +:+ reservation_id
             +:+ "' cancelled successfully.");;
      mret true
  end.

Definition from_dict (data : ReservationDict.t) : t :=
  mk (ReservationDict.reservation_id data) (ReservationDict.customer_id data)
     (ReservationDict.hotel_id data) (ReservationDict.check_in data)
     (ReservationDict.check_out data).

Definition display_reservation (reservation_id : string) : IO (option t) :=
  reservations ← _load_reservations;
  match reservations !! reservation_id with
  | None =>
      print ("Error: Reservation '" +:+ reservation_id +:+ "' not found.");;
      mret None
  | Some data =>
      print "--- Reservation Info ---";;
      print ("Reservation ID : " +:+ ReservationDict.reservation_id data);;
      print ("Customer ID    : " +:+ ReservationDict.customer_id data);;
      print ("Hotel ID       : " +:+ ReservationDict.hotel_id data);;
      print ("Check-in       : " +:+ ReservationDict.check_in data);;
      print ("Check-out      : " +:+ ReservationDict.check_out data);;
      mret (Some (from_dict data))
  end.
End Reservation.

(** ** Vocabulary of the specification *)

(** The failure kinds of the specification.  The Python functions report
    all of them by returning [False] or [None]; what tells them apart is
    the line each one prints. *)
Inductive failure : Type :=
  | Customer_DuplicateKey (id : string)
  | Customer_NotFound (id : string)
  | Hotel_DuplicateKey (id : string)
  | Hotel_NotFound (id : string)
  | NoAvailability (hotel_id : string)
  | AlreadyFull (hotel_id : string)
  | CustomerNotFound (customer_id : string)
  | HotelNotFound (hotel_id : string)
  | Reservation_NotFound (id : string).

Definition diagnostic (f : failure) : string :=
  match f with
  | Customer_DuplicateKey id =>
      "Error: Customer with ID '" +:+ id +:+ "' already exists."
  | Customer_NotFound id =>
      "Error: Customer with ID '" +:+ id +:+ "' not found."
  | Hotel_DuplicateKey id =>
      "Error: Hotel with ID '" +:+ id +:+ "' already exists."
  | Hotel_NotFound id =>
      "Error: Hotel with ID '" +:+ id +:+ "' not found."
  | NoAvailability id =>
      "Error: No available rooms in hotel '" +:+ id +:+ "'."
  | AlreadyFull id =>
      "Error: All rooms already available in hotel '" +:+ id +:+ "'."
  | CustomerNotFound id =>
      "Error: Customer '" +:+ id +:+ "' not found."
  | HotelNotFound id =>
      "Error: Hotel '" +:+ id +:+ "' not found."
  | Reservation_NotFound id =>
      "Error: Reservation '" +:+ id +:+ "' not found."
  end.

(** None of the three files differs between [w] and [w']. *)
Definition files_unchanged (w w' : World) : Prop :=
  customers_file w' = customers_file w
  ∧ hotels_file w' = hotels_file w
  ∧ reservations_file w' = reservations_file w.

(** Exactly [lines] were printed between [w] and [w']. *)
Definition printed (lines : list string) (w w' : World) : Prop :=
  stdout w' = (stdout w ++ lines)%list.

(** A call failed with [f]: nothing was written, the diagnostic of [f]
    is the one line printed. *)
Definition failed_with (f : failure) (w w' : World) : Prop :=
  files_unchanged w w' ∧ printed [diagnostic f] w w'.

(** The only difference between the files of [w] and of [w'] is that the
    [available_rooms] of hotel [hotel_id] moved by [delta]: the two other
    files and every other hotel are the same, the hotel is stored before
    and after, its four other fields are the same and its
    [available_rooms] afterwards is the one before plus [delta]. *)
Definition rooms_shifted (hotel_id : string) (delta : Z) (w w' : World)
  : Prop :=
  customers_file w' = customers_file w
  ∧ reservations_file w' = reservations_file w
  ∧ (∀ j, j ≠ hotel_id → hotels_file w' !! j = hotels_file w !! j)
  ∧ ∃ d d', hotels_file w !! hotel_id = Some d
            ∧ hotels_file w' !! hotel_id = Some d'
            ∧ HotelDict.hotel_id d' = HotelDict.hotel_id d
            ∧ HotelDict.name d' = HotelDict.name d
            ∧ HotelDict.location d' = HotelDict.location d
            ∧ HotelDict.total_rooms d' = HotelDict.total_rooms d
            ∧ HotelDict.available_rooms d'
              = HotelDict.available_rooms d + delta.

(** What a keyword argument [arg] of [modify_*] does to a string field
    whose value was [old] and is [new] afterwards: a non-empty string
    replaces it, [None] and the empty string leave it alone. *)
Definition field_updated (arg : option string) (old new : string) : Prop :=
  (∀ s, arg = Some s → s ≠ EmptyString → new = s)
  ∧ (arg = None → new = old)
  ∧ (arg = Some EmptyString → new = old).

(** ** The reservation protocol as a sequence of calls *)

(** The calls that leave [hotels.json] to [Hotel.reserve_room] and
    [Hotel.cancel_room]: the two reservation operations, and the customer
    operations, which write [customers.json] only.  A
    [Create_reservation] carries the identifier its [uuid.uuid4()]
    produced. *)
Inductive call : Type :=
  | Create_reservation
      (customer_id hotel_id check_in check_out uuid8 : string)
  | Cancel_reservation (reservation_id : string)
  | Create_customer (customer_id name email phone : string)
  | Delete_customer (customer_id : string)
  | Modify_customer (customer_id : string) (name email phone : option string).

Definition is_reservation_call (c : call) : bool :=
  match c with
  | Create_reservation _ _ _ _ _ | Cancel_reservation _ => true
  | _ => false
  end.

(** Python's [x is not None]. *)
Definition is_not_None {A : Type} (x : option A) : bool :=
  match x with Some _ => true | None => false end.

(** Runs one call and tells whether it reported success (a value other
    than [None], or [True]). *)
Definition run_call (c : call) : IO bool :=
  match c with
  | Create_reservation customer_id hotel_id check_in check_out uuid8 =>
      r ← Reservation.create_reservation
            customer_id hotel_id check_in check_out uuid8;
      mret (is_not_None r)
  | Cancel_reservation reservation_id =>
      Reservation.cancel_reservation reservation_id
  | Create_customer customer_id name email phone =>
      r ← Customer.create_customer customer_id name email phone;
      mret (is_not_None r)
  | Delete_customer customer_id => Customer.delete_customer customer_id
  | Modify_customer customer_id name email phone =>
      Customer.modify_customer customer_id name email phone
  end.

(** Runs the calls in order.  The result is the final world when every
    reservation call of the sequence succeeded, and [None] as soon as one
    of them fails (customer calls may succeed or fail). *)
Fixpoint run_calls (cs : list call) (w : World) : option World :=
  match cs with
  | [] => Some w
  | c :: cs' =>
      let (ok, w') := run_call c w in
      if is_reservation_call c && negb ok then None else run_calls cs' w'
  end.

(** The identifier drawn by the call, when it draws one, is not a key of
    [reservations.json]. *)
Definition draws_fresh_id (c : call) (w : World) : Prop :=
  match c with
  | Create_reservation _ _ _ _ uuid8 => reservations_file w !! uuid8 = None
  | _ => True
  end.

(** Every identifier drawn by a [Create_reservation] of the sequence is
    not a key of [reservations.json] at the moment it is drawn. *)
Fixpoint ids_fresh (cs : list call) (w : World) : Prop :=
  match cs with
  | [] => True
  | c :: cs' => draws_fresh_id c w ∧ ids_fresh cs' (run_call c w).2
  end.

(** The number of records of a reservations dictionary whose [hotel_id]
    is [hotel_id]. *)
Definition reservations_for (hotel_id : string)
    (reservations : gmap string ReservationDict.t) : nat :=
  size (filter (λ kv : string * ReservationDict.t,
                  ReservationDict.hotel_id kv.2 = hotel_id)
               reservations).

(** The number of live reservations against the hotel. *)
Definition live_reservations (hotel_id : string) (w : World) : nat :=
  reservations_for hotel_id (reservations_file w).

(** The hotel exists, all its rooms are free and no reservation record
    refers to it. *)
Definition hotel_untouched (hotel_id : string) (w : World) : Prop :=
  (∃ d, hotels_file w !! hotel_id = Some d
        ∧ HotelDict.available_rooms d = HotelDict.total_rooms d)
  ∧ ∀ rid r, reservations_file w !! rid = Some r →
             ReservationDict.hotel_id r ≠ hotel_id.

(** The rooms taken in the hotel are as many as its live reservations. *)
Definition rooms_match_reservations (hotel_id : string) (w : World) : Prop :=
  ∃ d, hotels_file w !! hotel_id = Some d
       ∧ HotelDict.total_rooms d - HotelDict.available_rooms d
         = Z.of_nat (live_reservations hotel_id w).

(** ** Concrete worlds *)

(** The fixture of the reservation tests ([H1], five free rooms, and
    customer [C1]) together with the one-room hotel [H_FULL], whose room
    is taken by reservation [1a2b3c4d]. *)
Definition demo_world : World :=
  mkWorld
    {[ "C1" := CustomerDict.mk "C1" "Alice" "alice@mail.com" "123" ]}
    (<[ "H1" := HotelDict.mk "H1" "Grand" "NYC" 5 5 ]>
       {[ "H_FULL" := HotelDict.mk "H_FULL" "Tiny" "NYC" 1 0 ]})
    {[ "1a2b3c4d" :=
         ReservationDict.mk "1a2b3c4d" "C1" "H_FULL"
                            "2025-01-01" "2025-01-02" ]}
    [].

(** Scenario E: one hotel with ten rooms, all free. *)
Definition scenario_E_world : World :=
  mkWorld ∅ {[ "H1" := HotelDict.mk "H1" "Grand" "NYC" 10 10 ]} ∅ [].

(** The fixture of the reservation tests right after [setUp]. *)
Definition fixture_world : World :=
  mkWorld
    {[ "C1" := CustomerDict.mk "C1" "Alice" "alice@mail.com" "123" ]}
    {[ "H1" := HotelDict.mk "H1" "Grand" "NYC" 5 5 ]}
    ∅
    [].


(** Two reservations for [H1], the first of which is then cancelled. *)
Definition book_book_cancel : list call :=
  [ Create_reservation "C1" "H1" "2025-01-01" "2025-01-05" "1a2b3c4d";
    Create_customer "C2" "Bob" "bob@mail.com" "456";
    Create_reservation "C2" "H1" "2025-02-01" "2025-02-05" "5e6f7a8b";
    Cancel_reservation "1a2b3c4d" ].

(** Two reservations for [H1] whose identifiers happen to coincide. *)
Definition colliding_calls : list call :=
  [ Create_reservation "C1" "H1" "2025-01-01" "2025-01-05" "1a2b3c4d";
    Create_reservation "C1" "H1" "2025-02-01" "2025-02-05" "1a2b3c4d" ].

(** ** Arbitrary sequences of public operations *)

(** One call of a public operation of the three classes, with its
    arguments. *)
Inductive op : Type :=
  | Op_create_hotel (hotel_id name location : string) (total_rooms : Z)
  | Op_delete_hotel (hotel_id : string)
  | Op_display_hotel (hotel_id : string)
  | Op_modify_hotel (hotel_id : string) (name location : option string)
                    (total_rooms : option Z)
  | Op_reserve_room (hotel_id : string)
  | Op_cancel_room (hotel_id : string)
  | Op_create_customer (customer_id name email phone : string)
  | Op_delete_customer (customer_id : string)
  | Op_display_customer (customer_id : string)
  | Op_modify_customer (customer_id : string)
                       (name email phone : option string)
  | Op_create_reservation
      (customer_id hotel_id check_in check_out uuid8 : string)
  | Op_cancel_reservation (reservation_id : string)
  | Op_display_reservation (reservation_id : string).

(** The world after a call whose result is dropped. *)
Definition after {A : Type} (m : IO A) (w : World) : World := (m w).2.

Definition run_op (o : op) (w : World) : World :=
  match o with
  | Op_create_hotel hotel_id name location total_rooms =>
      after (Hotel.create_hotel hotel_id name location total_rooms) w
  | Op_delete_hotel hotel_id => after (Hotel.delete_hotel hotel_id) w
  | Op_display_hotel hotel_id => after (Hotel.display_hotel hotel_id) w
  | Op_modify_hotel hotel_id name location total_rooms =>
      after (Hotel.modify_hotel hotel_id name location total_rooms) w
  | Op_reserve_room hotel_id => after (Hotel.reserve_room hotel_id) w
  | Op_cancel_room hotel_id => after (Hotel.cancel_room hotel_id) w
  | Op_create_customer customer_id name email phone =>
      after (Customer.create_customer customer_id name email phone) w
  | Op_delete_customer customer_id =>
      after (Customer.delete_customer customer_id) w
  | Op_display_customer customer_id =>
      after (Customer.display_customer customer_id) w
  | Op_modify_customer customer_id name email phone =>
      after (Customer.modify_customer customer_id name email phone) w
  | Op_create_reservation customer_id hotel_id check_in check_out uuid8 =>
      after (Reservation.create_reservation
               customer_id hotel_id check_in check_out uuid8) w
  | Op_cancel_reservation reservation_id =>
      after (Reservation.cancel_reservation reservation_id) w
  | Op_display_reservation reservation_id =>
      after (Reservation.display_reservation reservation_id) w
  end.

(** The calls one after the other, whatever each one answers. *)
Fixpoint run_ops (os : list op) (w : World) : World :=
  match os with
  | [] => w
  | o :: os' => run_ops os' (run_op o w)
  end.

(** Which class an operation belongs to. *)
Inductive store : Type := CustomerStore | HotelStore | ReservationStore.

Definition store_of (o : op) : store :=
  match o with
  | Op_create_hotel _ _ _ _ | Op_delete_hotel _ | Op_display_hotel _
  | Op_modify_hotel _ _ _ _ | Op_reserve_room _ | Op_cancel_room _ =>
      HotelStore
  | Op_create_customer _ _ _ _ | Op_delete_customer _
  | Op_display_customer _ | Op_modify_customer _ _ _ _ => CustomerStore
  | Op_create_reservation _ _ _ _ _ | Op_cancel_reservation _
  | Op_display_reservation _ => ReservationStore
  end.

Definition is_delete (o : op) : bool :=
  match o with
  | Op_delete_hotel _ | Op_delete_customer _ => true
  | _ => false
  end.

(** The [total_rooms] argument of the call, when it has one. *)
Definition total_rooms_arg (o : op) : option Z :=
  match o with
  | Op_create_hotel _ _ _ total_rooms => Some total_rooms
  | Op_modify_hotel _ _ _ total_rooms => total_rooms
  | _ => None
  end.

(** Every stored dictionary carries, as its id, the key it is stored
    under. *)
Definition keys_match_ids (w : World) : Prop :=
  map_Forall (λ k d, CustomerDict.customer_id d = k) (customers_file w)
  ∧ map_Forall (λ k d, HotelDict.hotel_id d = k) (hotels_file w)
  ∧ map_Forall (λ k d, ReservationDict.reservation_id d = k)
               (reservations_file w).

(** Every stored hotel has [0 <= available_rooms <= total_rooms]. *)
Definition rooms_within_bounds (w : World) : Prop :=
  map_Forall (λ _ d, 0 ≤ HotelDict.available_rooms d
                     ∧ HotelDict.available_rooms d ≤ HotelDict.total_rooms d)
             (hotels_file w).

(** Every stored reservation names a stored customer and a stored
    hotel. *)
Definition references_resolve (w : World) : Prop :=
  map_Forall (λ _ r,
                is_Some (customers_file w !! ReservationDict.customer_id r)
                ∧ is_Some (hotels_file w !! ReservationDict.hotel_id r))
             (reservations_file w).

(** The files of [w'] are those of [w] except that the hotels file has
    entry [d] under [hotel_id]. *)
Definition only_hotel_set (hotel_id : string) (d : HotelDict.t)
    (w w' : World) : Prop :=
  customers_file w' = customers_file w
  ∧ reservations_file w' = reservations_file w
  ∧ hotels_file w' !! hotel_id = Some d
  ∧ ∀ j, j ≠ hotel_id → hotels_file w' !! j = hotels_file w !! j.

(** The same for a customer. *)
Definition only_customer_set (customer_id : string) (d : CustomerDict.t)
    (w w' : World) : Prop :=
  hotels_file w' = hotels_file w
  ∧ reservations_file w' = reservations_file w
  ∧ customers_file w' !! customer_id = Some d
  ∧ ∀ j, j ≠ customer_id → customers_file w' !! j = customers_file w !! j.

(** A hotel with more free rooms than rooms, reached through the public
    operations alone: five rooms, then a negative total, then three. *)
Definition over_capacity_world : World :=
  run_ops [ Op_create_hotel "H3" "Odd" "Rome" 5;
            Op_modify_hotel "H3" None None (Some (-2));
            Op_modify_hotel "H3" None None (Some 3) ]
          fixture_world.

(** An argument that [if arg:] skips. *)
Definition falsy (arg : option string) : Prop :=
  arg = None ∨ arg = Some EmptyString.

(** The call passes no negative [total_rooms]. *)
Definition total_rooms_arg_nonneg (o : op) : Prop :=
  match total_rooms_arg o with
  | Some n => 0 ≤ n
  | None => True
  end.

(** Whether the call reports success: a value other than [None] for the
    operations that return an object, [True] for the others. *)
Definition reports_success (o : op) (w : World) : bool :=
  match o with
  | Op_create_hotel hotel_id name location total_rooms =>
      is_not_None (Hotel.create_hotel hotel_id name location total_rooms w).1
  | Op_delete_hotel hotel_id => (Hotel.delete_hotel hotel_id w).1
  | Op_display_hotel hotel_id => is_not_None (Hotel.display_hotel hotel_id w).1
  | Op_modify_hotel hotel_id name location total_rooms =>
      (Hotel.modify_hotel hotel_id name location total_rooms w).1
  | Op_reserve_room hotel_id => (Hotel.reserve_room hotel_id w).1
  | Op_cancel_room hotel_id => (Hotel.cancel_room hotel_id w).1
  | Op_create_customer customer_id name email phone =>
      is_not_None (Customer.create_customer customer_id name email phone w).1
  | Op_delete_customer customer_id =>
      (Customer.delete_customer customer_id w).1
  | Op_display_customer customer_id =>
      is_not_None (Customer.display_customer customer_id w).1
  | Op_modify_customer customer_id name email phone =>
      (Customer.modify_customer customer_id name email phone w).1
  | Op_create_reservation customer_id hotel_id check_in check_out uuid8 =>
      is_not_None
        (Reservation.create_reservation
           customer_id hotel_id check_in check_out uuid8 w).1
  | Op_cancel_reservation reservation_id =>
      (Reservation.cancel_reservation reservation_id w).1
  | Op_display_reservation reservation_id =>
      is_not_None (Reservation.display_reservation reservation_id w).1
  end.

(** A mixed day at the desk, with failing calls in between. *)
Definition busy_day : list op :=
  [ Op_create_hotel "H2" "Plaza" "LA" 2;
    Op_create_customer "C2" "Bob" "bob@mail.com" "456";
    Op_create_reservation "C2" "H2" "2025-03-01" "2025-03-02" "aaaa0001";
    Op_create_reservation "C1" "H2" "2025-03-01" "2025-03-02" "aaaa0002";
    Op_create_reservation "C1" "H2" "2025-03-01" "2025-03-02" "aaaa0003";
    Op_modify_hotel "H2" (Some "Plaza II") None (Some 1);
    Op_cancel_reservation "aaaa0001";
    Op_cancel_reservation "aaaa0001";
    Op_cancel_room "H1";
    Op_reserve_room "H9";
    Op_modify_customer "C2" None (Some "bob@plaza.com") None;
    Op_display_hotel "H2";
    Op_display_customer "C2";
    Op_display_reservation "aaaa0002" ].

(** The hotel stored under [hotel_id] is [d] up to its
    [available_rooms], which is not negative. *)
Definition same_hotel_free_rooms_nonneg (d : HotelDict.t)
    (hotel_id : string) (w : World) : Prop :=
  ∃ a, hotels_file w !! hotel_id = Some (HotelDict.set_available_rooms a d)
       ∧ 0 ≤ a.

(** The operations that create, delete or edit a hotel. *)
Definition is_hotel_admin (o : op) : bool :=
  match o with
  | Op_create_hotel _ _ _ _ | Op_delete_hotel _ | Op_modify_hotel _ _ _ _ =>
      true
  | _ => false
  end.

(** Two hotels files hold the same hotels, equal up to
    [available_rooms]. *)
Definition same_hotels_up_to_free_rooms
    (m m' : gmap string HotelDict.t) : Prop :=
  ∀ k, match m !! k, m' !! k with
       | None, None => True
       | Some d, Some d' => ∃ a, d' = HotelDict.set_available_rooms a d
       | _, _ => False
       end.

(** ** Proof support *)

Ltac io_unfold :=
  unfold Hotel.create_hotel, Hotel.delete_hotel, Hotel.modify_hotel,
    Hotel.reserve_room, Hotel.cancel_room,
    Customer.create_customer, Customer.delete_customer,
    Customer.modify_customer,
    Reservation.create_reservation, Reservation.cancel_reservation,
    Hotel._load_hotels, Hotel._save_hotels,
    Customer._load_customers, Customer._save_customers,
    Reservation._load_reservations, Reservation._save_reservations,
    Reservation._load_customers, Reservation._load_hotels,
    print, mbind, IO_bind, mret, IO_ret in *.

Lemma failed_with_print (f : failure) (w : World) :
  failed_with f w (print (diagnostic f) w).2.
Proof. by repeat split. Qed.

(** ** Hotel.reserve_room and Hotel.cancel_room *)

(** [Hotel.reserve_room], outcome by outcome. *)
Lemma reserve_room_run (w : World) (hotel_id : string) :
  Hotel.reserve_room hotel_id w =
  match hotels_file w !! hotel_id with
  | None => (false, (print (diagnostic (Hotel_NotFound hotel_id)) w).2)
  | Some d =>
      if HotelDict.available_rooms d <=? 0
      then (false, (print (diagnostic (NoAvailability hotel_id)) w).2)
      else (true,
            mkWorld (customers_file w)
              (<[hotel_id := HotelDict.set_available_rooms
                               (HotelDict.available_rooms d - 1) d]>
                 (hotels_file w))
              (reservations_file w) (stdout w))
  end.
Proof.
  io_unfold. simpl. destruct (hotels_file w !! hotel_id) as [d|]; [|done].
  by destruct (HotelDict.available_rooms d <=? 0).
Qed.

Lemma rooms_shifted_insert (w : World) (hotel_id : string) (delta : Z)
    (d : HotelDict.t) :
  hotels_file w !! hotel_id = Some d →
  rooms_shifted hotel_id delta w
    (mkWorld (customers_file w)
       (<[hotel_id := HotelDict.set_available_rooms
                        (HotelDict.available_rooms d + delta) d]>
          (hotels_file w))
       (reservations_file w) (stdout w)).
Proof.
  intros Hd. split; [done|]. split; [done|]. split.
  - intros j Hj. cbn [hotels_file]. by rewrite lookup_insert_ne.
  - exists d, (HotelDict.set_available_rooms
                 (HotelDict.available_rooms d + delta) d).
    cbn [hotels_file]. rewrite lookup_insert_eq.
    split; [done|]. split; [done|]. by repeat split.
Qed.

(** C2. [Hotel.reserve_room]: an absent hotel is reported as not found
    and a hotel without a free room ([available_rooms <= 0]) as having no
    availability, both without changing any file; otherwise the call
    returns [True], prints nothing, and the only change is that this
    hotel's [available_rooms] went down by exactly one: the stored
    hotel afterwards has [available_rooms] equal to the old value minus
    one and its other fields as before, and every other hotel and the two
    other files are as before. *)
Theorem reserve_room_spec (w : World) (hotel_id : string) :
  let (ok, w') := Hotel.reserve_room hotel_id w in
  (hotels_file w !! hotel_id = None →
     ok = false ∧ failed_with (Hotel_NotFound hotel_id) w w')
  ∧ (∀ d, hotels_file w !! hotel_id = Some d →
       HotelDict.available_rooms d ≤ 0 →
       ok = false ∧ failed_with (NoAvailability hotel_id) w w')
  ∧ (∀ d, hotels_file w !! hotel_id = Some d →
       0 < HotelDict.available_rooms d →
       ok = true ∧ printed [] w w' ∧ rooms_shifted hotel_id (-1) w w'
       ∧ ∃ d', hotels_file w' !! hotel_id = Some d'
               ∧ HotelDict.available_rooms d'
                 = HotelDict.available_rooms d - 1
               ∧ HotelDict.total_rooms d' = HotelDict.total_rooms d
               ∧ HotelDict.hotel_id d' = HotelDict.hotel_id d
               ∧ HotelDict.name d' = HotelDict.name d
               ∧ HotelDict.location d' = HotelDict.location d).
Proof.
  rewrite reserve_room_run.
  destruct (hotels_file w !! hotel_id) as [d|] eqn:Hd.
  - destruct (Z.leb_spec (HotelDict.available_rooms d) 0) as [Hle|Hgt].
    + split; [done|]. split.
      * intros d' [= <-] _. split; [done|]. apply failed_with_print.
      * intros d' [= <-] ?. lia.
    + split; [done|]. split.
      * intros d' [= <-] ?. lia.
      * intros d' [= <-] _. split; [done|]. split.
        { unfold printed. simpl. by rewrite app_nil_r. }
        split; [by apply (rooms_shifted_insert w hotel_id (-1))|].
        eexists. cbn [hotels_file]. rewrite lookup_insert_eq.
        split; [done|]. by repeat split.
  - split.
    + intros _. split; [done|]. apply failed_with_print.
    + split; intros d; discriminate.
Qed.

Lemma reserve_room_spec_witness :
  failed_with (Hotel_NotFound "H9") demo_world
    (Hotel.reserve_room "H9" demo_world).2
  ∧ failed_with (NoAvailability "H_FULL") demo_world
      (Hotel.reserve_room "H_FULL" demo_world).2
  ∧ (Hotel.reserve_room "H1" demo_world).1 = true
  ∧ hotels_file (Hotel.reserve_room "H1" demo_world).2 !! "H1"
    = Some (HotelDict.mk "H1" "Grand" "NYC" 5 4)
  ∧ hotels_file (Hotel.reserve_room "H1" demo_world).2 !! "H_FULL"
    = Some (HotelDict.mk "H_FULL" "Tiny" "NYC" 1 0).
Proof.
  split; [|split].
  - generalize (reserve_room_spec demo_world "H9").
    destruct (Hotel.reserve_room "H9" demo_world) as [ok w'].
    intros (H & _ & _). apply H. reflexivity.
  - generalize (reserve_room_spec demo_world "H_FULL").
    destruct (Hotel.reserve_room "H_FULL" demo_world) as [ok w'].
    intros (_ & H & _).
    apply (H (HotelDict.mk "H_FULL" "Tiny" "NYC" 1 0)); [reflexivity|simpl; lia].
  - generalize (reserve_room_spec demo_world "H1").
    destruct (Hotel.reserve_room "H1" demo_world) as [ok w'].
    intros (_ & _ & H).
    destruct (H (HotelDict.mk "H1" "Grand" "NYC" 5 5) eq_refl
                ltac:(simpl; lia))
      as (Hok & _ & (_ & _ & Hothers & _)
          & d' & Hd' & Ha & Ht & Hi & Hn & Hl).
    split; [exact Hok|]. split.
    + simpl. rewrite Hd'. f_equal. destruct d' as [i n l t a].
      simpl in *. by rewrite Hi, Hn, Hl, Ht, Ha.
    + simpl. rewrite (Hothers "H_FULL"); [reflexivity|discriminate].
Defined.

(** [Hotel.cancel_room], outcome by outcome. *)
Lemma cancel_room_run (w : World) (hotel_id : string) :
  Hotel.cancel_room hotel_id w =
  match hotels_file w !! hotel_id with
  | None => (false, (print (diagnostic (Hotel_NotFound hotel_id)) w).2)
  | Some d =>
      if HotelDict.available_rooms d >=? HotelDict.total_rooms d
      then (false, (print (diagnostic (AlreadyFull hotel_id)) w).2)
      else (true,
            mkWorld (customers_file w)
              (<[hotel_id := HotelDict.set_available_rooms
                               (HotelDict.available_rooms d + 1) d]>
                 (hotels_file w))
              (reservations_file w) (stdout w))
  end.
Proof.
  io_unfold. simpl. destruct (hotels_file w !! hotel_id) as [d|]; [|done].
  by destruct (HotelDict.available_rooms d >=? HotelDict.total_rooms d).
Qed.

(** C3. [Hotel.cancel_room]: an absent hotel is reported as not found
    and a hotel whose [available_rooms] is at or above its [total_rooms]
    as already full, both without changing any file; otherwise the call
    returns [True], prints nothing, and the only change is that this
    hotel's [available_rooms] went up by exactly one: the stored hotel
    afterwards has [available_rooms] equal to the old value plus one and
    its other fields as before, and every other hotel and the two other
    files are as before. *)
Theorem cancel_room_spec (w : World) (hotel_id : string) :
  let (ok, w') := Hotel.cancel_room hotel_id w in
  (hotels_file w !! hotel_id = None →
     ok = false ∧ failed_with (Hotel_NotFound hotel_id) w w')
  ∧ (∀ d, hotels_file w !! hotel_id = Some d →
       HotelDict.total_rooms d ≤ HotelDict.available_rooms d →
       ok = false ∧ failed_with (AlreadyFull hotel_id) w w')
  ∧ (∀ d, hotels_file w !! hotel_id = Some d →
       HotelDict.available_rooms d < HotelDict.total_rooms d →
       ok = true ∧ printed [] w w' ∧ rooms_shifted hotel_id 1 w w'
       ∧ ∃ d', hotels_file w' !! hotel_id = Some d'
               ∧ HotelDict.available_rooms d'
                 = HotelDict.available_rooms d + 1
               ∧ HotelDict.total_rooms d' = HotelDict.total_rooms d
               ∧ HotelDict.hotel_id d' = HotelDict.hotel_id d
               ∧ HotelDict.name d' = HotelDict.name d
               ∧ HotelDict.location d' = HotelDict.location d).
Proof.
  rewrite cancel_room_run.
  destruct (hotels_file w !! hotel_id) as [d|] eqn:Hd.
  - destruct (Z.geb_spec (HotelDict.available_rooms d)
                (HotelDict.total_rooms d)) as [Hge|Hlt].
    + split; [done|]. split.
      * intros ? [= <-] _. split; [done|]. apply failed_with_print.
      * intros ? [= <-] ?. lia.
    + split; [done|]. split.
      * intros ? [= <-] ?. lia.
      * intros ? [= <-] _. split; [done|]. split.
        { unfold printed. simpl. by rewrite app_nil_r. }
        split; [by apply rooms_shifted_insert|].
        eexists. cbn [hotels_file]. rewrite lookup_insert_eq.
        split; [done|]. by repeat split.
  - split.
    + intros _. split; [done|]. apply failed_with_print.
    + split; intros d; discriminate.
Qed.

Lemma cancel_room_spec_witness :
  failed_with (Hotel_NotFound "H9") demo_world
    (Hotel.cancel_room "H9" demo_world).2
  ∧ failed_with (AlreadyFull "H1") demo_world
      (Hotel.cancel_room "H1" demo_world).2
  ∧ (Hotel.cancel_room "H_FULL" demo_world).1 = true
  ∧ hotels_file (Hotel.cancel_room "H_FULL" demo_world).2 !! "H_FULL"
    = Some (HotelDict.mk "H_FULL" "Tiny" "NYC" 1 1)
  ∧ hotels_file (Hotel.cancel_room "H_FULL" demo_world).2 !! "H1"
    = Some (HotelDict.mk "H1" "Grand" "NYC" 5 5).
Proof.
  split; [|split].
  - generalize (cancel_room_spec demo_world "H9").
    destruct (Hotel.cancel_room "H9" demo_world) as [ok w'].
    intros (H & _ & _). apply H. reflexivity.
  - generalize (cancel_room_spec demo_world "H1").
    destruct (Hotel.cancel_room "H1" demo_world) as [ok w'].
    intros (_ & H & _).
    apply (H (HotelDict.mk "H1" "Grand" "NYC" 5 5)); [reflexivity|simpl; lia].
  - generalize (cancel_room_spec demo_world "H_FULL").
    destruct (Hotel.cancel_room "H_FULL" demo_world) as [ok w'].
    intros (_ & _ & H).
    destruct (H (HotelDict.mk "H_FULL" "Tiny" "NYC" 1 0) eq_refl
                ltac:(simpl; lia))
      as (Hok & _ & (_ & _ & Hothers & _)
          & d' & Hd' & Ha & Ht & Hi & Hn & Hl).
    split; [exact Hok|]. split.
    + simpl. rewrite Hd'. f_equal. destruct d' as [i n l t a].
      simpl in *. by rewrite Hi, Hn, Hl, Ht, Ha.
    + simpl. rewrite (Hothers "H1"); [reflexivity|discriminate].
Defined.

(** ** Reservation.create_reservation and Reservation.cancel_reservation *)

Lemma create_reservation_run (w : World)
    (customer_id hotel_id check_in check_out uuid8 : string) :
  Reservation.create_reservation
    customer_id hotel_id check_in check_out uuid8 w =
  match customers_file w !! customer_id with
  | None => (None, (print (diagnostic (CustomerNotFound customer_id)) w).2)
  | Some _ =>
      match hotels_file w !! hotel_id with
      | None => (None, (print (diagnostic (HotelNotFound hotel_id)) w).2)
      | Some d =>
          if HotelDict.available_rooms d <=? 0
          then (None, (print (diagnostic (NoAvailability hotel_id)) w).2)
          else
            (Some (Reservation.mk uuid8 customer_id hotel_id
                                  check_in check_out),
             mkWorld (customers_file w)
               (<[hotel_id := HotelDict.set_available_rooms
                                (HotelDict.available_rooms d - 1) d]>
                  (hotels_file w))
               (<[uuid8 := ReservationDict.mk uuid8 customer_id hotel_id
                                              check_in check_out]>
                  (reservations_file w))
               (stdout w ++
                  ["Reservation '" +:+ uuid8 +:+ "' created: "
                   +:+ "Customer '" +:+ customer_id
                   +:+ "' at Hotel '" +:+ hotel_id +:+ "'."]))
      end
  end.
Proof.
  unfold Reservation.create_reservation.
  unfold mbind at 1, IO_bind at 1.
  unfold Reservation._load_customers at 1.
  destruct (customers_file w !! customer_id) as [c|]; [|done].
  unfold mbind at 1, IO_bind at 1.
  unfold Reservation._load_hotels at 1.
  destruct (hotels_file w !! hotel_id) as [d|] eqn:Hd; [|done].
  unfold mbind at 1, IO_bind at 1.
  rewrite reserve_room_run, Hd.
  by destruct (HotelDict.available_rooms d <=? 0).
Qed.

Lemma cancel_reservation_run (w : World) (reservation_id : string) :
  Reservation.cancel_reservation reservation_id w =
  match reservations_file w !! reservation_id with
  | None =>
      (false, (print (diagnostic (Reservation_NotFound reservation_id)) w).2)
  | Some r =>
      let w1 := (Hotel.cancel_room (ReservationDict.hotel_id r) w).2 in
      (true,
       mkWorld (customers_file w1) (hotels_file w1)
         (delete reservation_id (reservations_file w))
         (stdout w1 ++
            ["Reservation '" +:+ reservation_id
             +:+ "' cancelled successfully."]))
  end.
Proof.
  unfold Reservation.cancel_reservation.
  unfold mbind at 1, IO_bind at 1.
  unfold Reservation._load_reservations at 1.
  destruct (reservations_file w !! reservation_id) as [r|]; [|done].
  unfold mbind at 1, IO_bind at 1.
  by destruct (Hotel.cancel_room (ReservationDict.hotel_id r) w) as [b w1].
Qed.

(** C4. [Reservation.create_reservation] returns [None] and writes to none
    of the three files when the customer is absent (reported as customer
    not found) or the hotel is absent (reported as hotel not found once
    the customer was found); when the hotel exists with
    [available_rooms <= 0] it returns [None] as well, no reservation is
    recorded and the hotel keeps its [available_rooms] (no file changes),
    and for a known customer the report is the no-availability one. *)
Theorem create_reservation_failures (w : World)
    (customer_id hotel_id check_in check_out uuid8 : string) :
  let (r, w') :=
    Reservation.create_reservation
      customer_id hotel_id check_in check_out uuid8 w in
  (customers_file w !! customer_id = None →
     r = None ∧ failed_with (CustomerNotFound customer_id) w w')
  ∧ (hotels_file w !! hotel_id = None →
       r = None ∧ files_unchanged w w'
       ∧ (is_Some (customers_file w !! customer_id) →
          failed_with (HotelNotFound hotel_id) w w'))
  ∧ (∀ d, hotels_file w !! hotel_id = Some d →
       HotelDict.available_rooms d ≤ 0 →
       r = None ∧ files_unchanged w w'
       ∧ reservations_file w' !! uuid8 = reservations_file w !! uuid8
       ∧ hotels_file w' !! hotel_id = Some d
       ∧ (is_Some (customers_file w !! customer_id) →
          failed_with (NoAvailability hotel_id) w w')).
Proof.
  rewrite create_reservation_run.
  destruct (customers_file w !! customer_id) as [c|] eqn:Hc.
  - destruct (hotels_file w !! hotel_id) as [d|] eqn:Hd.
    + destruct (Z.leb_spec (HotelDict.available_rooms d) 0) as [Hle|Hgt].
      * split; [done|]. split; [done|].
        intros ? [= <-] _. split; [done|].
        split; [apply failed_with_print|].
        split; [done|]. split; [done|]. intros _. apply failed_with_print.
      * split; [done|]. split; [done|]. intros ? [= <-] ?. lia.
    + split; [done|]. split; [|intros; discriminate].
      intros _. split; [done|].
      split; [apply failed_with_print|]. intros _. apply failed_with_print.
  - split.
    + intros _. split; [done|]. apply failed_with_print.
    + split.
      * intros _. split; [done|].
        split; [apply failed_with_print|]. intros [? ?]; discriminate.
      * intros d Hd _. split; [done|].
        split; [apply failed_with_print|].
        split; [done|]. split; [done|]. intros [? ?]; discriminate.
Qed.

Lemma create_reservation_failures_witness :
  failed_with (CustomerNotFound "INVALID_C") demo_world
    (Reservation.create_reservation
       "INVALID_C" "H1" "2025-01-01" "2025-01-05" "9f8e7d6c" demo_world).2
  ∧ failed_with (HotelNotFound "INVALID_H") demo_world
      (Reservation.create_reservation
         "C1" "INVALID_H" "2025-01-01" "2025-01-05" "9f8e7d6c" demo_world).2
  ∧ failed_with (NoAvailability "H_FULL") demo_world
      (Reservation.create_reservation
         "C1" "H_FULL" "2025-01-03" "2025-01-04" "9f8e7d6c" demo_world).2.
Proof.
  split; [|split].
  - generalize (create_reservation_failures demo_world
                  "INVALID_C" "H1" "2025-01-01" "2025-01-05" "9f8e7d6c").
    destruct (Reservation.create_reservation _ _ _ _ _ _) as [r w'].
    intros (H & _ & _). apply H. reflexivity.
  - generalize (create_reservation_failures demo_world
                  "C1" "INVALID_H" "2025-01-01" "2025-01-05" "9f8e7d6c").
    destruct (Reservation.create_reservation _ _ _ _ _ _) as [r w'].
    intros (_ & H & _). apply H; [reflexivity|]. eexists. reflexivity.
  - generalize (create_reservation_failures demo_world
                  "C1" "H_FULL" "2025-01-03" "2025-01-04" "9f8e7d6c").
    destruct (Reservation.create_reservation _ _ _ _ _ _) as [r w'].
    intros (_ & _ & H).
    apply (H (HotelDict.mk "H_FULL" "Tiny" "NYC" 1 0));
      [reflexivity|simpl; lia|]. eexists. reflexivity.
Defined.



(** ** Hotel.create_hotel, Hotel.delete_hotel, Hotel.modify_hotel *)

Lemma create_hotel_run (w : World) (hotel_id name location : string)
    (total_rooms : Z) :
  Hotel.create_hotel hotel_id name location total_rooms w =
  match hotels_file w !! hotel_id with
  | Some _ => (None, (print (diagnostic (Hotel_DuplicateKey hotel_id)) w).2)
  | None =>
      (Some (Hotel.mk hotel_id name location total_rooms total_rooms),
       mkWorld (customers_file w)
         (<[hotel_id := HotelDict.mk hotel_id name location
                                     total_rooms total_rooms]>
            (hotels_file w))
         (reservations_file w)
         (stdout w ++ ["Hotel '" +:+ name +:+ "' created successfully."]))
  end.
Proof.
  io_unfold. simpl. by destruct (hotels_file w !! hotel_id).
Qed.

Lemma delete_hotel_run (w : World) (hotel_id : string) :
  Hotel.delete_hotel hotel_id w =
  match hotels_file w !! hotel_id with
  | None => (false, (print (diagnostic (Hotel_NotFound hotel_id)) w).2)
  | Some _ =>
      (true,
       mkWorld (customers_file w) (delete hotel_id (hotels_file w))
         (reservations_file w)
         (stdout w ++ ["Hotel '" +:+ hotel_id +:+ "' deleted successfully."]))
  end.
Proof.
  io_unfold. simpl. by destruct (hotels_file w !! hotel_id).
Qed.

Lemma modify_hotel_run (w : World) (hotel_id : string)
    (name location : option string) (total_rooms : option Z) :
  Hotel.modify_hotel hotel_id name location total_rooms w =
  match hotels_file w !! hotel_id with
  | None => (false, (print (diagnostic (Hotel_NotFound hotel_id)) w).2)
  | Some d =>
      (true,
       mkWorld (customers_file w)
         (<[hotel_id :=
              Hotel.apply_total_rooms total_rooms
                (assign_if_truthy HotelDict.set_location location
                   (assign_if_truthy HotelDict.set_name name d))]>
            (hotels_file w))
         (reservations_file w)
         (stdout w ++ ["Hotel '" +:+ hotel_id +:+ "' modified successfully."]))
  end.
Proof.
  io_unfold. simpl. by destruct (hotels_file w !! hotel_id).
Qed.

Lemma assign_if_truthy_hotel_rooms (name location : option string)
    (d : HotelDict.t) :
  let d' := assign_if_truthy HotelDict.set_location location
              (assign_if_truthy HotelDict.set_name name d) in
  HotelDict.total_rooms d' = HotelDict.total_rooms d
  ∧ HotelDict.available_rooms d' = HotelDict.available_rooms d.
Proof.
  destruct name as [[|? ?]|], location as [[|? ?]|]; by simpl.
Qed.

(** C6. [Hotel.modify_hotel] on a stored hotel with a [total_rooms]
    argument returns [True]; afterwards the stored [total_rooms] is the
    argument, whatever its sign and whether it is above or below the old
    value, and the stored [available_rooms] is
    [max(0, old_available + (new_total - old_total))].  From 10 rooms,
    all free, to 15 rooms this makes 15 free rooms. *)
Theorem modify_hotel_total_rooms (w : World) (hotel_id : string)
    (name location : option string) (new_total : Z) (d : HotelDict.t) :
  hotels_file w !! hotel_id = Some d →
  let (ok, w') :=
    Hotel.modify_hotel hotel_id name location (Some new_total) w in
  ok = true
  ∧ ∃ d', hotels_file w' !! hotel_id = Some d'
          ∧ HotelDict.total_rooms d' = new_total
          ∧ HotelDict.available_rooms d'
            = Z.max 0 (HotelDict.available_rooms d
                       + (new_total - HotelDict.total_rooms d))
          ∧ (HotelDict.total_rooms d = 10 →
             HotelDict.available_rooms d = 10 →
             new_total = 15 →
             HotelDict.available_rooms d' = 15).
Proof.
  intros Hd. rewrite modify_hotel_run, Hd. cbv beta iota.
  split; [done|].
  eexists. split; [cbn [hotels_file]; by rewrite lookup_insert_eq|].
  destruct (assign_if_truthy_hotel_rooms name location d) as [Ht Ha].
  simpl. rewrite Ht, Ha. split; [done|]. split; [done|]. lia.
Qed.

Lemma modify_hotel_total_rooms_witness :
  let (ok, w') :=
    Hotel.modify_hotel "H1" None None (Some 15) scenario_E_world in
  ok = true
  ∧ ∃ d', hotels_file w' !! "H1" = Some d'
          ∧ HotelDict.total_rooms d' = 15
          ∧ HotelDict.available_rooms d' = 15.
Proof.
  generalize (modify_hotel_total_rooms scenario_E_world "H1" None None 15
                (HotelDict.mk "H1" "Grand" "NYC" 10 10) eq_refl).
  destruct (Hotel.modify_hotel _ _ _ _ _) as [ok w'].
  intros (Hok & d' & Hd' & Ht & _ & Hex).
  split; [exact Hok|]. exists d'. split; [exact Hd'|]. split; [exact Ht|].
  apply Hex; reflexivity.
Defined.

(** ** Customer.create_customer, Customer.delete_customer,
       Customer.modify_customer *)

Lemma create_customer_run (w : World) (customer_id name email phone : string) :
  Customer.create_customer customer_id name email phone w =
  match customers_file w !! customer_id with
  | Some _ =>
      (None, (print (diagnostic (Customer_DuplicateKey customer_id)) w).2)
  | None =>
      (Some (Customer.mk customer_id name email phone),
       mkWorld
         (<[customer_id := CustomerDict.mk customer_id name email phone]>
            (customers_file w))
         (hotels_file w) (reservations_file w)
         (stdout w ++ ["Customer '" +:+ name +:+ "' created successfully."]))
  end.
Proof.
  io_unfold. simpl. by destruct (customers_file w !! customer_id).
Qed.

Lemma delete_customer_run (w : World) (customer_id : string) :
  Customer.delete_customer customer_id w =
  match customers_file w !! customer_id with
  | None => (false, (print (diagnostic (Customer_NotFound customer_id)) w).2)
  | Some _ =>
      (true,
       mkWorld (delete customer_id (customers_file w))
         (hotels_file w) (reservations_file w)
         (stdout w ++
            ["Customer '" +:+ customer_id +:+ "' deleted successfully."]))
  end.
Proof.
  io_unfold. simpl. by destruct (customers_file w !! customer_id).
Qed.

Lemma modify_customer_run (w : World) (customer_id : string)
    (name email phone : option string) :
  Customer.modify_customer customer_id name email phone w =
  match customers_file w !! customer_id with
  | None => (false, (print (diagnostic (Customer_NotFound customer_id)) w).2)
  | Some d =>
      (true,
       mkWorld
         (<[customer_id :=
              assign_if_truthy CustomerDict.set_phone phone
                (assign_if_truthy CustomerDict.set_email email
                   (assign_if_truthy CustomerDict.set_name name d))]>
            (customers_file w))
         (hotels_file w) (reservations_file w)
         (stdout w ++
            ["Customer '" +:+ customer_id +:+ "' modified successfully."]))
  end.
Proof.
  io_unfold. simpl. by destruct (customers_file w !! customer_id).
Qed.

(** C7. Creating a customer, or a hotel, under an id that is already a
    key of its file returns [None], reports the duplicate, and leaves the
    three files (hence the stored record) as they were. *)
Theorem create_duplicate_spec (w : World) (id : string) :
  (∀ name email phone c,
     customers_file w !! id = Some c →
     let (r, w') := Customer.create_customer id name email phone w in
     r = None ∧ failed_with (Customer_DuplicateKey id) w w'
     ∧ customers_file w' !! id = Some c)
  ∧ (∀ name location total_rooms h,
       hotels_file w !! id = Some h →
       let (r, w') := Hotel.create_hotel id name location total_rooms w in
       r = None ∧ failed_with (Hotel_DuplicateKey id) w w'
       ∧ hotels_file w' !! id = Some h).
Proof.
  split.
  - intros name email phone c Hc. rewrite create_customer_run, Hc.
    split; [done|]. split; [apply failed_with_print|done].
  - intros name location total_rooms h Hh. rewrite create_hotel_run, Hh.
    split; [done|]. split; [apply failed_with_print|done].
Qed.

Lemma create_duplicate_spec_witness :
  failed_with (Customer_DuplicateKey "C1") demo_world
    (Customer.create_customer "C1" "Bob" "bob@mail.com" "456" demo_world).2
  ∧ failed_with (Hotel_DuplicateKey "H1") demo_world
      (Hotel.create_hotel "H1" "Other" "LA" 20 demo_world).2.
Proof.
  destruct (create_duplicate_spec demo_world "C1") as [Hc _].
  destruct (create_duplicate_spec demo_world "H1") as [_ Hh].
  split.
  - generalize (Hc "Bob" "bob@mail.com" "456"
                  (CustomerDict.mk "C1" "Alice" "alice@mail.com" "123")
                  eq_refl).
    destruct (Customer.create_customer _ _ _ _ _) as [r w'].
    intros (_ & H & _). exact H.
  - generalize (Hh "Other" "LA" 20 (HotelDict.mk "H1" "Grand" "NYC" 5 5)
                  eq_refl).
    destruct (Hotel.create_hotel _ _ _ _ _) as [r w'].
    intros (_ & H & _). exact H.
Defined.

Lemma assign_if_truthy_updated {D : Type} (set : string → D → D)
    (get : D → string) (arg : option string) (d : D) :
  (∀ s d0, get (set s d0) = s) →
  field_updated arg (get d) (get (assign_if_truthy set arg d)).
Proof.
  intros Hset. unfold field_updated, assign_if_truthy.
  split; [|split].
  - intros s -> Hs. destruct s; [done|]. simpl. apply Hset.
  - by intros ->.
  - by intros ->.
Qed.

(** C8. [Customer.modify_customer] on a stored customer returns [True]
    and rewrites exactly the fields among [name], [email], [phone] whose
    argument is a non-empty string; a field whose argument is omitted
    ([None]) or the empty string keeps its value, as do [customer_id],
    every other customer and the two other files.  On an unknown id it
    returns [False], reports not found and changes no file. *)
Theorem modify_customer_spec (w : World) (customer_id : string)
    (name email phone : option string) :
  let (ok, w') := Customer.modify_customer customer_id name email phone w in
  (customers_file w !! customer_id = None →
     ok = false ∧ failed_with (Customer_NotFound customer_id) w w')
  ∧ (∀ d, customers_file w !! customer_id = Some d →
       ok = true
       ∧ hotels_file w' = hotels_file w
       ∧ reservations_file w' = reservations_file w
       ∧ (∀ j, j ≠ customer_id →
               customers_file w' !! j = customers_file w !! j)
       ∧ ∃ d', customers_file w' !! customer_id = Some d'
               ∧ CustomerDict.customer_id d' = CustomerDict.customer_id d
               ∧ field_updated name (CustomerDict.name d)
                               (CustomerDict.name d')
               ∧ field_updated email (CustomerDict.email d)
                               (CustomerDict.email d')
               ∧ field_updated phone (CustomerDict.phone d)
                               (CustomerDict.phone d')).
Proof.
  rewrite modify_customer_run.
  destruct (customers_file w !! customer_id) as [d|] eqn:Hd.
  - split; [done|]. intros ? [= <-]. cbn [customers_file hotels_file
      reservations_file].
    split; [done|]. split; [done|]. split; [done|].
    split; [intros j Hj; by rewrite lookup_insert_ne|].
    eexists. split; [by rewrite lookup_insert_eq|].
    pose proof (assign_if_truthy_updated CustomerDict.set_name
                  CustomerDict.name name d (λ _ _, eq_refl)) as Hn.
    pose proof (assign_if_truthy_updated CustomerDict.set_email
                  CustomerDict.email email
                  (assign_if_truthy CustomerDict.set_name name d)
                  (λ _ _, eq_refl)) as He.
    pose proof (assign_if_truthy_updated CustomerDict.set_phone
                  CustomerDict.phone phone
                  (assign_if_truthy CustomerDict.set_email email
                     (assign_if_truthy CustomerDict.set_name name d))
                  (λ _ _, eq_refl)) as Hp.
    destruct name as [[|? ?]|], email as [[|? ?]|], phone as [[|? ?]|];
      simpl in *; done.
  - split; [|intros; discriminate].
    intros _. split; [done|]. apply failed_with_print.
Qed.

Lemma modify_customer_spec_witness :
  failed_with (Customer_NotFound "NOPE") demo_world
    (Customer.modify_customer "NOPE" (Some "X") None None demo_world).2
  ∧ (let (ok, w') :=
       Customer.modify_customer "C1" (Some "Alicia") (Some EmptyString) None
         demo_world in
     ok = true
     ∧ customers_file w' !! "C1"
       = Some (CustomerDict.mk "C1" "Alicia" "alice@mail.com" "123")).
Proof.
  split.
  - generalize (modify_customer_spec demo_world "NOPE" (Some "X") None None).
    destruct (Customer.modify_customer _ _ _ _ _) as [ok w'].
    intros (H & _). apply H. reflexivity.
  - generalize (modify_customer_spec demo_world "C1"
                  (Some "Alicia") (Some EmptyString) None).
    destruct (Customer.modify_customer _ _ _ _ _) as [ok w'].
    intros (_ & H).
    destruct (H (CustomerDict.mk "C1" "Alice" "alice@mail.com" "123") eq_refl)
      as (Hok & _ & _ & _ & d' & Hd' & Hid & (Hn & _) & (_ & _ & He)
          & (_ & Hp & _)).
    split; [exact Hok|]. rewrite Hd'. f_equal.
    destruct d' as [i n e p]. simpl in *.
    rewrite Hid, (Hn "Alicia" eq_refl), (He eq_refl), (Hp eq_refl);
      [reflexivity|discriminate].
Defined.

(** ** Operations on an id that is not stored *)

(** C9. On an id that is not a key of the file concerned,
    [Customer.delete_customer], [Customer.modify_customer],
    [Hotel.delete_hotel], [Hotel.modify_hotel] (whatever the other
    arguments) and [Reservation.cancel_reservation] return [False], report
    the id as not found, and leave the three files exactly as they were. *)
Theorem absent_id_is_noop (w : World) (id : string) :
  (customers_file w !! id = None →
     (let (ok, w') := Customer.delete_customer id w in
      ok = false ∧ failed_with (Customer_NotFound id) w w')
     ∧ ∀ name email phone,
         let (ok, w') := Customer.modify_customer id name email phone w in
         ok = false ∧ failed_with (Customer_NotFound id) w w')
  ∧ (hotels_file w !! id = None →
       (let (ok, w') := Hotel.delete_hotel id w in
        ok = false ∧ failed_with (Hotel_NotFound id) w w')
       ∧ ∀ name location total_rooms,
           let (ok, w') :=
             Hotel.modify_hotel id name location total_rooms w in
           ok = false ∧ failed_with (Hotel_NotFound id) w w')
  ∧ (reservations_file w !! id = None →
       let (ok, w') := Reservation.cancel_reservation id w in
       ok = false ∧ failed_with (Reservation_NotFound id) w w').
Proof.
  split; [|split].
  - intros Hc. split.
    + rewrite delete_customer_run, Hc. split; [done|apply failed_with_print].
    + intros name email phone. rewrite modify_customer_run, Hc.
      split; [done|apply failed_with_print].
  - intros Hh. split.
    + rewrite delete_hotel_run, Hh. split; [done|apply failed_with_print].
    + intros name location total_rooms. rewrite modify_hotel_run, Hh.
      split; [done|apply failed_with_print].
  - intros Hr. rewrite cancel_reservation_run, Hr.
    split; [done|apply failed_with_print].
Qed.

Lemma absent_id_is_noop_witness :
  files_unchanged demo_world (Customer.delete_customer "ZZ" demo_world).2
  ∧ files_unchanged demo_world
      (Customer.modify_customer "ZZ" (Some "N") (Some "E") (Some "P")
         demo_world).2
  ∧ files_unchanged demo_world (Hotel.delete_hotel "ZZ" demo_world).2
  ∧ files_unchanged demo_world
      (Hotel.modify_hotel "ZZ" (Some "N") (Some "L") (Some 7) demo_world).2
  ∧ files_unchanged demo_world
      (Reservation.cancel_reservation "ZZ" demo_world).2.
Proof.
  destruct (absent_id_is_noop demo_world "ZZ") as (Hc & Hh & Hr).
  destruct (Hc eq_refl) as [Hcd Hcm].
  destruct (Hh eq_refl) as [Hhd Hhm].
  specialize (Hcm (Some "N") (Some "E") (Some "P")).
  specialize (Hhm (Some "N") (Some "L") (Some 7)).
  specialize (Hr eq_refl).
  destruct (Customer.delete_customer _ _) as [? ?].
  destruct (Customer.modify_customer _ _ _ _ _) as [? ?].
  destruct (Hotel.delete_hotel _ _) as [? ?].
  destruct (Hotel.modify_hotel _ _ _ _ _) as [? ?].
  destruct (Reservation.cancel_reservation _ _) as [? ?].
  repeat split; first [apply Hcd | apply Hcm | apply Hhd | apply Hhm | apply Hr].
Defined.

(** ** No validation of [total_rooms] *)

(** C10. [Hotel.create_hotel] with an unused id succeeds for every
    integer [total_rooms], zero and negative ones included, and stores
    [available_rooms = total_rooms].  [Hotel.modify_hotel] applies a
    [total_rooms] argument of [0] (stored total becomes [0]), whereas an
    empty [name] or [location] argument changes nothing; and for a
    negative new total it stores that negative [total_rooms] while
    [available_rooms] is kept at or above [0], so that afterwards
    [available_rooms > total_rooms]. *)
Theorem total_rooms_not_validated (w : World) (hotel_id : string) :
  (∀ name location total_rooms,
     hotels_file w !! hotel_id = None →
     let (r, w') := Hotel.create_hotel hotel_id name location total_rooms w in
     r = Some (Hotel.mk hotel_id name location total_rooms total_rooms)
     ∧ ∃ d, hotels_file w' !! hotel_id = Some d
            ∧ HotelDict.total_rooms d = total_rooms
            ∧ HotelDict.available_rooms d = total_rooms)
  ∧ (∀ d, hotels_file w !! hotel_id = Some d →
       let (ok, w') :=
         Hotel.modify_hotel hotel_id (Some EmptyString) (Some EmptyString)
           (Some 0) w in
       ok = true
       ∧ ∃ d', hotels_file w' !! hotel_id = Some d'
               ∧ HotelDict.total_rooms d' = 0
               ∧ HotelDict.name d' = HotelDict.name d
               ∧ HotelDict.location d' = HotelDict.location d)
  ∧ (∀ name location new_total d,
       hotels_file w !! hotel_id = Some d →
       new_total < 0 →
       let (ok, w') :=
         Hotel.modify_hotel hotel_id name location (Some new_total) w in
       ok = true
       ∧ ∃ d', hotels_file w' !! hotel_id = Some d'
               ∧ HotelDict.total_rooms d' = new_total
               ∧ 0 ≤ HotelDict.available_rooms d'
               ∧ HotelDict.total_rooms d' < HotelDict.available_rooms d').
Proof.
  split; [|split].
  - intros name location total_rooms Hh. rewrite create_hotel_run, Hh.
    split; [done|]. eexists.
    split; [cbn [hotels_file]; by rewrite lookup_insert_eq|done].
  - intros d Hd. rewrite modify_hotel_run, Hd. cbv beta iota.
    split; [done|]. eexists.
    split; [cbn [hotels_file]; by rewrite lookup_insert_eq|done].
  - intros name location new_total d Hd Hneg.
    rewrite modify_hotel_run, Hd. cbv beta iota.
    split; [done|]. eexists.
    split; [cbn [hotels_file]; by rewrite lookup_insert_eq|].
    destruct (assign_if_truthy_hotel_rooms name location d) as [Ht Ha].
    simpl. rewrite Ht, Ha. lia.
Qed.

Lemma total_rooms_not_validated_witness :
  (let (r, w') := Hotel.create_hotel "H2" "Void" "Nowhere" (-3) demo_world in
   r = Some (Hotel.mk "H2" "Void" "Nowhere" (-3) (-3))
   ∧ hotels_file w' !! "H2"
     = Some (HotelDict.mk "H2" "Void" "Nowhere" (-3) (-3)))
  ∧ (let (ok, w') :=
       Hotel.modify_hotel "H1" (Some EmptyString) (Some EmptyString) (Some 0)
         demo_world in
     ok = true
     ∧ hotels_file w' !! "H1" = Some (HotelDict.mk "H1" "Grand" "NYC" 0 0))
  ∧ (let (ok, w') :=
       Hotel.modify_hotel "H1" None None (Some (-2)) demo_world in
     ok = true
     ∧ hotels_file w' !! "H1" = Some (HotelDict.mk "H1" "Grand" "NYC" (-2) 0)).
Proof.
  split; [|split].
  - destruct (total_rooms_not_validated demo_world "H2") as (H & _ & _).
    generalize (H "Void" "Nowhere" (-3) eq_refl).
    destruct (Hotel.create_hotel _ _ _ _ _) as [r w'] eqn:E.
    intros (Hr & _). split; [exact Hr|].
    vm_compute in E. injection E as _ <-. reflexivity.
  - destruct (total_rooms_not_validated demo_world "H1") as (_ & H & _).
    generalize (H (HotelDict.mk "H1" "Grand" "NYC" 5 5) eq_refl).
    destruct (Hotel.modify_hotel _ _ _ _ _) as [ok w'] eqn:E.
    intros (Hok & _). split; [exact Hok|].
    vm_compute in E. injection E as _ <-. reflexivity.
  - destruct (total_rooms_not_validated demo_world "H1") as (_ & _ & H).
    generalize (H None None (-2) (HotelDict.mk "H1" "Grand" "NYC" 5 5)
                  eq_refl ltac:(lia)).
    destruct (Hotel.modify_hotel _ _ _ _ _) as [ok w'] eqn:E.
    intros (Hok & _). split; [exact Hok|].
    vm_compute in E. injection E as _ <-. reflexivity.
Defined.

(** ** Rooms taken and live reservations *)

Section Counting.
Variable hotel_id : string.

Lemma reservations_for_none (m : gmap string ReservationDict.t) :
  (∀ rid r, m !! rid = Some r → ReservationDict.hotel_id r ≠ hotel_id) →
  reservations_for hotel_id m = 0%nat.
Proof.
  intros Hno. unfold reservations_for.
  apply map_size_empty_iff, map_empty. intros rid.
  apply map_lookup_filter_None_2.
  destruct (m !! rid) as [r|] eqn:Hr; [right|by left].
  intros r' [= <-]. simpl. by apply (Hno rid).
Qed.

Lemma reservations_for_insert_fresh (m : gmap string ReservationDict.t)
    (rid : string) (r : ReservationDict.t) :
  m !! rid = None →
  reservations_for hotel_id (<[rid := r]> m) =
  if decide (ReservationDict.hotel_id r = hotel_id)
  then S (reservations_for hotel_id m)
  else reservations_for hotel_id m.
Proof.
  intros Hfresh. unfold reservations_for.
  rewrite map_filter_insert. simpl.
  destruct (decide (ReservationDict.hotel_id r = hotel_id)).
  - apply map_size_insert_None, map_lookup_filter_None_2. by left.
  - by rewrite delete_id.
Qed.

Lemma reservations_for_delete (m : gmap string ReservationDict.t)
    (rid : string) (r : ReservationDict.t) :
  m !! rid = Some r →
  reservations_for hotel_id m =
  if decide (ReservationDict.hotel_id r = hotel_id)
  then S (reservations_for hotel_id (delete rid m))
  else reservations_for hotel_id (delete rid m).
Proof.
  intros Hr. unfold reservations_for.
  rewrite map_filter_delete.
  destruct (decide (ReservationDict.hotel_id r = hotel_id)) as [Hh|Hh].
  - rewrite map_size_delete_Some.
    + assert (size (filter (λ kv : string * ReservationDict.t,
                 ReservationDict.hotel_id kv.2 = hotel_id) m) ≠ 0%nat)
        as Hpos; [|lia].
      intros Hz. apply map_size_empty_iff in Hz.
      by apply (map_filter_empty_not_lookup _ _ rid r Hz Hh).
    + exists r. by apply map_lookup_filter_Some.
  - rewrite delete_id; [done|].
    apply map_lookup_filter_None_2. right. intros r' Hr'. by simplify_eq.
Qed.
End Counting.

Lemma hotel_untouched_match (hotel_id : string) (w : World) :
  hotel_untouched hotel_id w → rooms_match_reservations hotel_id w.
Proof.
  intros [(d & Hd & Hfree) Hno]. exists d. split; [done|].
  unfold live_reservations. rewrite (reservations_for_none _ _ Hno). lia.
Qed.

Lemma rooms_match_same_files (h : string) (w w' : World) :
  hotels_file w' = hotels_file w →
  reservations_file w' = reservations_file w →
  rooms_match_reservations h w → rooms_match_reservations h w'.
Proof.
  unfold rooms_match_reservations, live_reservations.
  by intros -> ->.
Qed.

Lemma create_reservation_preserves_match (h : string) (w : World)
    (customer_id hotel_id check_in check_out uuid8 : string) :
  rooms_match_reservations h w →
  reservations_file w !! uuid8 = None →
  let (r, w') :=
    Reservation.create_reservation
      customer_id hotel_id check_in check_out uuid8 w in
  is_not_None r = true → rooms_match_reservations h w'.
Proof.
  intros (d0 & Hd0 & Hinv) Hfresh. rewrite create_reservation_run.
  destruct (customers_file w !! customer_id) as [c|]; [|done].
  destruct (hotels_file w !! hotel_id) as [d|] eqn:Hd; [|done].
  destruct (Z.leb_spec (HotelDict.available_rooms d) 0) as [Hle|Hgt]; [done|].
  intros _. unfold rooms_match_reservations, live_reservations.
  cbn [hotels_file reservations_file].
  rewrite (reservations_for_insert_fresh h _ _ _ Hfresh). simpl.
  destruct (decide (hotel_id = h)) as [->|Hne].
  - rewrite Hd in Hd0. injection Hd0 as ->.
    eexists. rewrite lookup_insert_eq. split; [done|].
    simpl. unfold live_reservations in Hinv. lia.
  - exists d0. by rewrite lookup_insert_ne.
Qed.

Lemma cancel_reservation_preserves_match (h : string) (w : World)
    (reservation_id : string) :
  rooms_match_reservations h w →
  let (ok, w') := Reservation.cancel_reservation reservation_id w in
  ok = true → rooms_match_reservations h w'.
Proof.
  intros (d0 & Hd0 & Hinv). rewrite cancel_reservation_run.
  destruct (reservations_file w !! reservation_id) as [r|] eqn:Hr; [|done].
  intros _. unfold rooms_match_reservations, live_reservations in *.
  cbn [hotels_file reservations_file].
  rewrite (reservations_for_delete h _ _ _ Hr) in Hinv.
  rewrite cancel_room_run.
  destruct (decide (ReservationDict.hotel_id r = h)) as [->|Hne].
  - rewrite Hd0.
    destruct (Z.geb_spec (HotelDict.available_rooms d0)
                (HotelDict.total_rooms d0)) as [Hge|Hlt]; [lia|].
    eexists. cbn [hotels_file snd]. rewrite lookup_insert_eq.
    split; [done|]. simpl. lia.
  - exists d0. split; [|done].
    destruct (hotels_file w !! ReservationDict.hotel_id r) as [d|]; [|done].
    destruct (HotelDict.available_rooms d >=? HotelDict.total_rooms d);
      [done|].
    cbn [hotels_file snd]. by rewrite lookup_insert_ne.
Qed.

Lemma run_call_preserves_match (h : string) (c : call) (w : World) :
  rooms_match_reservations h w →
  draws_fresh_id c w →
  let (ok, w') := run_call c w in
  (is_reservation_call c = true → ok = true) →
  rooms_match_reservations h w'.
Proof.
  intros Hinv Hfresh.
  destruct c as [cid hid ci co u|rid|cid n e p|cid|cid n e p];
    unfold run_call; simpl in Hfresh.
  - unfold mbind, IO_bind.
    pose proof (create_reservation_preserves_match h w cid hid ci co u
                  Hinv Hfresh) as Hstep.
    destruct (Reservation.create_reservation cid hid ci co u w) as [r w'].
    simpl. intros Hok. apply Hstep, Hok. reflexivity.
  - pose proof (cancel_reservation_preserves_match h w rid Hinv) as Hstep.
    destruct (Reservation.cancel_reservation rid w) as [ok w'].
    simpl. intros Hok. apply Hstep, Hok. reflexivity.
  - unfold mbind, IO_bind. rewrite create_customer_run.
    destruct (customers_file w !! cid); simpl; intros _;
      by apply (rooms_match_same_files h w).
  - rewrite delete_customer_run.
    destruct (customers_file w !! cid); intros _;
      by apply (rooms_match_same_files h w).
  - rewrite modify_customer_run.
    destruct (customers_file w !! cid); intros _;
      by apply (rooms_match_same_files h w).
Qed.

Lemma run_calls_preserve_match (h : string) (cs : list call) :
  ∀ w w',
    rooms_match_reservations h w →
    ids_fresh cs w →
    run_calls cs w = Some w' →
    rooms_match_reservations h w'.
Proof.
  induction cs as [|c cs IH]; intros w w' Hinv Hfresh Hrun.
  - simpl in Hrun. by injection Hrun as <-.
  - simpl in Hrun, Hfresh. destruct Hfresh as [Hc Hrest].
    pose proof (run_call_preserves_match h c w Hinv) as Hstep.
    destruct (run_call c w) as [ok w1].
    destruct (is_reservation_call c && negb ok) eqn:Hguard; [done|].
    apply (IH w1 w'); [|done|done].
    apply Hstep.
    + done.
    + intros Hres. rewrite Hres in Hguard. by destruct ok.
Qed.

(** C1, for identifiers that do not collide.  Start from a state in which the hotel exists with
    all rooms free and no reservation record refers to it, and run any
    sequence of reservation creations and cancellations that all succeed
    (customer operations may occur in between), in which every
    identifier drawn for a new reservation is not already a key of the
    reservations file.  Afterwards the hotel is still stored and its
    [total_rooms - available_rooms] is the number of reservation records
    whose [hotel_id] is that hotel. *)
Theorem rooms_match_after_protocol (hotel_id : string) (cs : list call)
    (w w' : World) :
  hotel_untouched hotel_id w →
  ids_fresh cs w →
  run_calls cs w = Some w' →
  rooms_match_reservations hotel_id w'.
Proof.
  intros Hstart. apply run_calls_preserve_match.
  by apply hotel_untouched_match.
Qed.

Lemma rooms_match_after_protocol_witness :
  ∃ w', run_calls book_book_cancel fixture_world = Some w'
        ∧ rooms_match_reservations "H1" w'.
Proof.
  eexists. split; [vm_compute; reflexivity|].
  apply (rooms_match_after_protocol "H1" book_book_cancel fixture_world).
  - split.
    + exists (HotelDict.mk "H1" "Grand" "NYC" 5 5). split; reflexivity.
    + intros rid r Hr. vm_compute in Hr. discriminate.
  - vm_compute. repeat split.
  - vm_compute. reflexivity.
Defined.

(** C1 without the condition on identifiers: it fails when
    [uuid.uuid4()] yields the same first eight
    characters twice: starting from the test fixture ([H1] with five free
    rooms, no reservation), two successful reservations for [H1] under
    the identifier [1a2b3c4d] take two rooms but leave a single record,
    the second one having replaced the first.  The second draw is the
    one that is not fresh. *)
Lemma colliding_ids_break_match :
  hotel_untouched "H1" fixture_world
  ∧ ∃ w', run_calls colliding_calls fixture_world = Some w'
          ∧ hotels_file w' !! "H1"
            = Some (HotelDict.mk "H1" "Grand" "NYC" 5 3)
          ∧ live_reservations "H1" w' = 1%nat
          ∧ ¬ rooms_match_reservations "H1" w'
          ∧ ¬ ids_fresh colliding_calls fixture_world.
Proof.
  split.
  - split.
    + exists (HotelDict.mk "H1" "Grand" "NYC" 5 5). split; reflexivity.
    + intros rid r Hr. vm_compute in Hr. discriminate.
  - eexists. split; [vm_compute; reflexivity|].
    split; [reflexivity|]. split; [reflexivity|]. split.
    + intros (d & Hd & Hm). vm_compute in Hd. injection Hd as <-.
      vm_compute in Hm. discriminate.
    + intros (_ & Hsecond & _). vm_compute in Hsecond. discriminate.
Qed.

(** * Further properties of the three modules *)

(** ** Displaying stored records *)

Lemma display_hotel_run (w : World) (hotel_id : string) :
  Hotel.display_hotel hotel_id w =
  match hotels_file w !! hotel_id with
  | None => (None, (print (diagnostic (Hotel_NotFound hotel_id)) w).2)
  | Some d =>
      (Some (Hotel.mk (HotelDict.hotel_id d) (HotelDict.name d)
               (HotelDict.location d) (HotelDict.total_rooms d)
               (HotelDict.available_rooms d)),
       mkWorld (customers_file w) (hotels_file w) (reservations_file w)
         (stdout w ++
            [ "--- Hotel Info ---";
              "ID       : " +:+ HotelDict.hotel_id d;
              "Name     : " +:+ HotelDict.name d;
              "Location : " +:+ HotelDict.location d;
              "Rooms    : " +:+ pretty (HotelDict.available_rooms d) +:+ "/"
              +:+ pretty (HotelDict.total_rooms d) +:+ " available" ]))
  end.
Proof.
  unfold Hotel.display_hotel, Hotel._load_hotels, print, mbind, IO_bind,
    mret, IO_ret.
  destruct (hotels_file w !! hotel_id) as [d|]; [|done].
  cbn -[pretty String.append]. by rewrite <- !app_assoc.
Qed.

Lemma display_customer_run (w : World) (customer_id : string) :
  Customer.display_customer customer_id w =
  match customers_file w !! customer_id with
  | None => (None, (print (diagnostic (Customer_NotFound customer_id)) w).2)
  | Some d =>
      (Some (Customer.mk (CustomerDict.customer_id d) (CustomerDict.name d)
               (CustomerDict.email d) (CustomerDict.phone d)),
       mkWorld (customers_file w) (hotels_file w) (reservations_file w)
         (stdout w ++
            [ "--- Customer Info ---";
              "ID    : " +:+ CustomerDict.customer_id d;
              "Name  : " +:+ CustomerDict.name d;
              "Email : " +:+ CustomerDict.email d;
              "Phone : " +:+ CustomerDict.phone d ]))
  end.
Proof.
  unfold Customer.display_customer, Customer._load_customers, print, mbind,
    IO_bind, mret, IO_ret.
  destruct (customers_file w !! customer_id) as [d|]; [|done].
  cbn -[String.append]. by rewrite <- !app_assoc.
Qed.

Lemma display_reservation_run (w : World) (reservation_id : string) :
  Reservation.display_reservation reservation_id w =
  match reservations_file w !! reservation_id with
  | None =>
      (None, (print (diagnostic (Reservation_NotFound reservation_id)) w).2)
  | Some d =>
      (Some (Reservation.mk (ReservationDict.reservation_id d)
               (ReservationDict.customer_id d) (ReservationDict.hotel_id d)
               (ReservationDict.check_in d) (ReservationDict.check_out d)),
       mkWorld (customers_file w) (hotels_file w) (reservations_file w)
         (stdout w ++
            [ "--- Reservation Info ---";
              "Reservation ID : " +:+ ReservationDict.reservation_id d;
              "Customer ID    : " +:+ ReservationDict.customer_id d;
              "Hotel ID       : " +:+ ReservationDict.hotel_id d;
              "Check-in       : " +:+ ReservationDict.check_in d;
              "Check-out      : " +:+ ReservationDict.check_out d ]))
  end.
Proof.
  unfold Reservation.display_reservation, Reservation._load_reservations,
    print, mbind, IO_bind, mret, IO_ret.
  destruct (reservations_file w !! reservation_id) as [d|]; [|done].
  cbn -[String.append]. by rewrite <- !app_assoc.
Qed.

(** X1. [to_dict] and [from_dict] are inverse to each other in the three
    classes, and [Hotel.from_dict] on a dictionary that has no
    [available_rooms] key yields the hotel with all its rooms free, the
    one the constructor builds. *)
Theorem to_dict_from_dict_round_trip :
  (∀ h, Hotel.from_dict (HotelData.of_dict (Hotel.to_dict h)) = h)
  ∧ (∀ d, Hotel.to_dict (Hotel.from_dict (HotelData.of_dict d)) = d)
  ∧ (∀ i n l t,
       Hotel.from_dict (HotelData.mk i n l t None) = Hotel.__init__ i n l t
       ∧ Hotel.available_rooms (Hotel.from_dict (HotelData.mk i n l t None))
         = t)
  ∧ (∀ c, Customer.from_dict (Customer.to_dict c) = c)
  ∧ (∀ d, Customer.to_dict (Customer.from_dict d) = d)
  ∧ (∀ r, Reservation.from_dict (Reservation.to_dict r) = r)
  ∧ (∀ d, Reservation.to_dict (Reservation.from_dict d) = d).
Proof.
  repeat split; try (by intros []).
Qed.

(** X2. The three [display_*] operations never write: whatever the id,
    the three files are as before.  For a stored id the value returned is
    the stored dictionary read back with [from_dict] (so [to_dict] of it
    is the stored dictionary); for an unknown id the value is [None] and
    the not-found line is printed. *)
Theorem display_is_read_only (w : World) (id : string) :
  (let (r, w') := Hotel.display_hotel id w in
   files_unchanged w w'
   ∧ (Hotel.to_dict <$> r) = hotels_file w !! id
   ∧ (hotels_file w !! id = None →
      printed [diagnostic (Hotel_NotFound id)] w w'))
  ∧ (let (r, w') := Customer.display_customer id w in
     files_unchanged w w'
     ∧ (Customer.to_dict <$> r) = customers_file w !! id
     ∧ (customers_file w !! id = None →
        printed [diagnostic (Customer_NotFound id)] w w'))
  ∧ (let (r, w') := Reservation.display_reservation id w in
     files_unchanged w w'
     ∧ (Reservation.to_dict <$> r) = reservations_file w !! id
     ∧ (reservations_file w !! id = None →
        printed [diagnostic (Reservation_NotFound id)] w w')).
Proof.
  rewrite display_hotel_run, display_customer_run, display_reservation_run.
  split; [|split].
  - destruct (hotels_file w !! id) as [[]|]; by repeat split.
  - destruct (customers_file w !! id) as [[]|]; by repeat split.
  - destruct (reservations_file w !! id) as [[]|]; by repeat split.
Qed.

Lemma display_is_read_only_witness :
  Hotel.to_dict <$> (Hotel.display_hotel "H1" demo_world).1
    = Some (HotelDict.mk "H1" "Grand" "NYC" 5 5)
  ∧ printed [diagnostic (Reservation_NotFound "NONEXISTENT")] demo_world
      (Reservation.display_reservation "NONEXISTENT" demo_world).2.
Proof.
  destruct (display_is_read_only demo_world "H1") as (Hh & _ & _).
  destruct (display_is_read_only demo_world "NONEXISTENT") as (_ & _ & Hr).
  split.
  - destruct (Hotel.display_hotel "H1" demo_world) as [r w'].
    destruct Hh as (_ & Hh & _). simpl. rewrite Hh. reflexivity.
  - destruct (Reservation.display_reservation _ _) as [r w'].
    destruct Hr as (_ & _ & Hr). apply Hr. reflexivity.
Defined.

(** ** Creating, reading back and deleting *)

(** X3. [Hotel.create_hotel] under an unused id returns the new hotel,
    whose fields are the arguments and whose rooms are all free; the only
    change to the files is the new entry; and [Hotel.display_hotel] of
    that id right afterwards returns an equal hotel and prints its
    five-line description. *)
Theorem create_hotel_then_display (w : World)
    (hotel_id name location : string) (total_rooms : Z) :
  hotels_file w !! hotel_id = None →
  let (r, w1) := Hotel.create_hotel hotel_id name location total_rooms w in
  let (r', w2) := Hotel.display_hotel hotel_id w1 in
  r = Some (Hotel.mk hotel_id name location total_rooms total_rooms)
  ∧ r' = r
  ∧ only_hotel_set hotel_id
      (HotelDict.mk hotel_id name location total_rooms total_rooms) w w1
  ∧ printed ["Hotel '" +:+ name +:+ "' created successfully."] w w1
  ∧ printed [ "--- Hotel Info ---";
              "ID       : " +:+ hotel_id;
              "Name     : " +:+ name;
              "Location : " +:+ location;
              "Rooms    : " +:+ pretty total_rooms +:+ "/"
              +:+ pretty total_rooms +:+ " available" ] w1 w2.
Proof.
  intros Hfresh. rewrite create_hotel_run, Hfresh.
  rewrite display_hotel_run. cbn [hotels_file].
  rewrite lookup_insert_eq.
  repeat split; cbn [hotels_file]; try done.
  - apply lookup_insert_eq.
  - intros j Hj. by rewrite lookup_insert_ne.
Qed.

Lemma create_hotel_then_display_witness :
  let (r, w1) := Hotel.create_hotel "H2" "Plaza" "LA" 3 demo_world in
  let (r', w2) := Hotel.display_hotel "H2" w1 in
  r' = Some (Hotel.mk "H2" "Plaza" "LA" 3 3)
  ∧ printed [ "--- Hotel Info ---"; "ID       : H2"; "Name     : Plaza";
              "Location : LA"; "Rooms    : 3/3 available" ] w1 w2.
Proof.
  generalize (create_hotel_then_display demo_world "H2" "Plaza" "LA" 3
                eq_refl).
  destruct (Hotel.create_hotel _ _ _ _ _) as [r w1].
  destruct (Hotel.display_hotel _ _) as [r' w2].
  intros (Hr & Hr' & _ & _ & Hp). split; [by rewrite Hr', Hr|exact Hp].
Defined.

(** X4. [Customer.create_customer] under an unused id returns the new
    customer, whose fields are the arguments; the only change to the
    files is the new entry; and [Customer.display_customer] of that id
    right afterwards returns an equal customer. *)
Theorem create_customer_then_display (w : World)
    (customer_id name email phone : string) :
  customers_file w !! customer_id = None →
  let (r, w1) := Customer.create_customer customer_id name email phone w in
  let (r', w2) := Customer.display_customer customer_id w1 in
  r = Some (Customer.mk customer_id name email phone)
  ∧ r' = r
  ∧ only_customer_set customer_id
      (CustomerDict.mk customer_id name email phone) w w1
  ∧ printed ["Customer '" +:+ name +:+ "' created successfully."] w w1.
Proof.
  intros Hfresh. rewrite create_customer_run, Hfresh.
  rewrite display_customer_run. cbn [customers_file].
  rewrite lookup_insert_eq.
  repeat split; cbn [customers_file]; try done.
  - apply lookup_insert_eq.
  - intros j Hj. by rewrite lookup_insert_ne.
Qed.

Lemma create_customer_then_display_witness :
  let (r, w1) :=
    Customer.create_customer "C2" "Bob" "bob@mail.com" "456" demo_world in
  (Customer.display_customer "C2" w1).1
  = Some (Customer.mk "C2" "Bob" "bob@mail.com" "456").
Proof.
  generalize (create_customer_then_display demo_world
                "C2" "Bob" "bob@mail.com" "456" eq_refl).
  destruct (Customer.create_customer _ _ _ _ _) as [r w1].
  destruct (Customer.display_customer _ _) as [r' w2].
  intros (Hr & Hr' & _). simpl. by rewrite Hr', Hr.
Defined.

(** X5. Creating a hotel (or a customer) under an unused id and deleting
    it right away succeeds twice and leaves the three files exactly as
    they were before the creation. *)
Theorem create_then_delete_restores (w : World) (id : string) :
  (∀ name location total_rooms,
     hotels_file w !! id = None →
     let (r, w1) := Hotel.create_hotel id name location total_rooms w in
     let (ok, w2) := Hotel.delete_hotel id w1 in
     is_not_None r = true ∧ ok = true ∧ files_unchanged w w2)
  ∧ (∀ name email phone,
       customers_file w !! id = None →
       let (r, w1) := Customer.create_customer id name email phone w in
       let (ok, w2) := Customer.delete_customer id w1 in
       is_not_None r = true ∧ ok = true ∧ files_unchanged w w2).
Proof.
  split.
  - intros name location total_rooms Hfresh.
    rewrite create_hotel_run, Hfresh, delete_hotel_run.
    cbn [hotels_file]. rewrite lookup_insert_eq.
    repeat split; cbn [hotels_file]. by apply delete_insert_id.
  - intros name email phone Hfresh.
    rewrite create_customer_run, Hfresh, delete_customer_run.
    cbn [customers_file]. rewrite lookup_insert_eq.
    repeat split; cbn [customers_file]. by apply delete_insert_id.
Qed.

Lemma create_then_delete_restores_witness :
  files_unchanged demo_world
    (Hotel.delete_hotel "H2"
       (Hotel.create_hotel "H2" "Plaza" "LA" 3 demo_world).2).2
  ∧ files_unchanged demo_world
      (Customer.delete_customer "C2"
         (Customer.create_customer "C2" "Bob" "bob@mail.com" "456"
            demo_world).2).2.
Proof.
  destruct (create_then_delete_restores demo_world "H2") as [Hh _].
  destruct (create_then_delete_restores demo_world "C2") as [_ Hc].
  specialize (Hh "Plaza" "LA" 3 eq_refl).
  specialize (Hc "Bob" "bob@mail.com" "456" eq_refl).
  destruct (Hotel.create_hotel _ _ _ _ _) as [r1 w1].
  destruct (Hotel.delete_hotel _ _) as [ok1 w2].
  destruct (Customer.create_customer _ _ _ _ _) as [r2 w3].
  destruct (Customer.delete_customer _ _) as [ok2 w4].
  split; [apply Hh|apply Hc].
Defined.

(** X6. Deleting a stored hotel (or customer) returns [True], removes
    that key only and touches no other file: reservation records that
    name it stay in the reservations file.  Right afterwards the id is
    unknown: displaying it returns [None] and deleting it again returns
    [False]. *)
Theorem delete_removes_only_that_key (w : World) (id : string) :
  (is_Some (hotels_file w !! id) →
     let (ok, w1) := Hotel.delete_hotel id w in
     ok = true
     ∧ hotels_file w1 !! id = None
     ∧ (∀ j, j ≠ id → hotels_file w1 !! j = hotels_file w !! j)
     ∧ customers_file w1 = customers_file w
     ∧ reservations_file w1 = reservations_file w
     ∧ live_reservations id w1 = live_reservations id w
     ∧ (Hotel.display_hotel id w1).1 = None
     ∧ (Hotel.delete_hotel id w1).1 = false)
  ∧ (is_Some (customers_file w !! id) →
       let (ok, w1) := Customer.delete_customer id w in
       ok = true
       ∧ customers_file w1 !! id = None
       ∧ (∀ j, j ≠ id → customers_file w1 !! j = customers_file w !! j)
       ∧ hotels_file w1 = hotels_file w
       ∧ reservations_file w1 = reservations_file w
       ∧ (Customer.display_customer id w1).1 = None
       ∧ (Customer.delete_customer id w1).1 = false).
Proof.
  split.
  - intros [d Hd]. rewrite delete_hotel_run, Hd.
    rewrite display_hotel_run, delete_hotel_run. cbn [hotels_file].
    rewrite lookup_delete_eq.
    repeat split; try done; try apply lookup_delete_eq;
      intros j Hj; by rewrite lookup_delete_ne.
  - intros [d Hd]. rewrite delete_customer_run, Hd.
    rewrite display_customer_run, delete_customer_run. cbn [customers_file].
    rewrite lookup_delete_eq.
    repeat split; try done; try apply lookup_delete_eq;
      intros j Hj; by rewrite lookup_delete_ne.
Qed.

Lemma delete_removes_only_that_key_witness :
  (let (ok, w1) := Hotel.delete_hotel "H_FULL" demo_world in
   ok = true ∧ hotels_file w1 !! "H_FULL" = None
   ∧ live_reservations "H_FULL" w1 = live_reservations "H_FULL" demo_world)
  ∧ (let (ok, w1) := Customer.delete_customer "C1" demo_world in
     ok = true ∧ customers_file w1 !! "C1" = None).
Proof.
  destruct (delete_removes_only_that_key demo_world "H_FULL") as [Hh _].
  destruct (delete_removes_only_that_key demo_world "C1") as [_ Hc].
  split.
  - assert (is_Some (hotels_file demo_world !! "H_FULL")) as Hs
      by (eexists; reflexivity).
    specialize (Hh Hs).
    destruct (Hotel.delete_hotel _ _) as [ok w1].
    destruct Hh as (? & ? & _ & _ & _ & ? & _). by repeat split.
  - assert (is_Some (customers_file demo_world !! "C1")) as Hs
      by (eexists; reflexivity).
    specialize (Hc Hs).
    destruct (Customer.delete_customer _ _) as [ok w1].
    destruct Hc as (? & ? & _). by split.
Defined.

(** ** Creating and cancelling reservations *)

Lemma set_available_rooms_twice (x y : Z) (d : HotelDict.t) :
  HotelDict.set_available_rooms x (HotelDict.set_available_rooms y d)
  = HotelDict.set_available_rooms x d.
Proof. by destruct d. Qed.

Lemma set_available_rooms_same (d : HotelDict.t) (x : Z) :
  x = HotelDict.available_rooms d → HotelDict.set_available_rooms x d = d.
Proof. intros ->. by destruct d. Qed.

(** X7. [Reservation.create_reservation] for a stored customer and a
    stored hotel with a free room returns the reservation made of its
    arguments and of the identifier drawn, stores it under that
    identifier (replacing whatever was stored there), takes exactly one
    room from that hotel and changes nothing else;
    [Reservation.display_reservation] of the identifier then returns an
    equal reservation. *)
Theorem create_reservation_success (w : World)
    (customer_id hotel_id check_in check_out uuid8 : string)
    (d : HotelDict.t) :
  is_Some (customers_file w !! customer_id) →
  hotels_file w !! hotel_id = Some d →
  0 < HotelDict.available_rooms d →
  let (r, w1) :=
    Reservation.create_reservation
      customer_id hotel_id check_in check_out uuid8 w in
  r = Some (Reservation.mk uuid8 customer_id hotel_id check_in check_out)
  ∧ customers_file w1 = customers_file w
  ∧ hotels_file w1 !! hotel_id
    = Some (HotelDict.set_available_rooms
              (HotelDict.available_rooms d - 1) d)
  ∧ (∀ j, j ≠ hotel_id → hotels_file w1 !! j = hotels_file w !! j)
  ∧ reservations_file w1 !! uuid8
    = Some (ReservationDict.mk uuid8 customer_id hotel_id check_in check_out)
  ∧ (∀ j, j ≠ uuid8 → reservations_file w1 !! j = reservations_file w !! j)
  ∧ (Reservation.display_reservation uuid8 w1).1 = r
  ∧ printed ["Reservation '" +:+ uuid8 +:+ "' created: Customer '"
             +:+ customer_id +:+ "' at Hotel '" +:+ hotel_id +:+ "'."] w w1.
Proof.
  intros [c Hc] Hd Hpos. rewrite create_reservation_run, Hc, Hd.
  destruct (Z.leb_spec (HotelDict.available_rooms d) 0) as [?|_]; [lia|].
  rewrite display_reservation_run.
  cbn [hotels_file reservations_file customers_file].
  rewrite !lookup_insert_eq.
  repeat split; try done.
  - intros j Hj. by rewrite lookup_insert_ne.
  - intros j Hj. by rewrite lookup_insert_ne.
Qed.

Lemma create_reservation_success_witness :
  let (r, w1) :=
    Reservation.create_reservation
      "C1" "H1" "2025-01-01" "2025-01-05" "0badcafe" demo_world in
  r = Some (Reservation.mk "0badcafe" "C1" "H1" "2025-01-01" "2025-01-05")
  ∧ hotels_file w1 !! "H1" = Some (HotelDict.mk "H1" "Grand" "NYC" 5 4).
Proof.
  assert (is_Some (customers_file demo_world !! "C1")) as Hc
    by (eexists; reflexivity).
  generalize (create_reservation_success demo_world
                "C1" "H1" "2025-01-01" "2025-01-05" "0badcafe"
                (HotelDict.mk "H1" "Grand" "NYC" 5 5) Hc eq_refl eq_refl).
  destruct (Reservation.create_reservation _ _ _ _ _ _) as [r w1].
  intros (Hr & _ & Hh & _). split; [exact Hr|exact Hh].
Defined.

(** X8. [Reservation.create_reservation] returns a reservation exactly
    when the customer is stored and the hotel is stored with
    [available_rooms > 0]; [Reservation.cancel_reservation] returns
    [True] exactly when the reservation is stored. *)
Theorem reservation_calls_succeed_iff (w : World)
    (customer_id hotel_id check_in check_out uuid8 reservation_id : string) :
  (is_not_None
     (Reservation.create_reservation
        customer_id hotel_id check_in check_out uuid8 w).1 = true
   ↔ is_Some (customers_file w !! customer_id)
     ∧ ∃ d, hotels_file w !! hotel_id = Some d
            ∧ 0 < HotelDict.available_rooms d)
  ∧ ((Reservation.cancel_reservation reservation_id w).1 = true
     ↔ is_Some (reservations_file w !! reservation_id)).
Proof.
  rewrite create_reservation_run, cancel_reservation_run. split.
  - destruct (customers_file w !! customer_id) as [c|].
    + destruct (hotels_file w !! hotel_id) as [d|].
      * destruct (Z.leb_spec (HotelDict.available_rooms d) 0); simpl.
        -- split; [done|]. intros (_ & d' & [= <-] & ?). lia.
        -- split; [|done]. intros _. split; [by eexists|].
           exists d. split; [done|lia].
      * simpl. split; [done|]. by intros (_ & d' & ? & _).
    + simpl. split; [done|]. intros ([? ?] & _). discriminate.
  - destruct (reservations_file w !! reservation_id) as [r|]; simpl.
    + split; [by eexists|done].
    + split; [done|]. intros [? ?]. discriminate.
Qed.

(** X9. A reservation created and cancelled right away leaves no trace
    in the files: for a stored customer, a hotel with
    [0 < available_rooms <= total_rooms] and an identifier that is not
    yet a key, both calls succeed and the three files are exactly as
    before. *)
Theorem create_then_cancel_restores (w : World)
    (customer_id hotel_id check_in check_out uuid8 : string)
    (d : HotelDict.t) :
  is_Some (customers_file w !! customer_id) →
  hotels_file w !! hotel_id = Some d →
  0 < HotelDict.available_rooms d →
  HotelDict.available_rooms d ≤ HotelDict.total_rooms d →
  reservations_file w !! uuid8 = None →
  let (r, w1) :=
    Reservation.create_reservation
      customer_id hotel_id check_in check_out uuid8 w in
  let (ok, w2) := Reservation.cancel_reservation uuid8 w1 in
  is_not_None r = true ∧ ok = true ∧ files_unchanged w w2.
Proof.
  intros [c Hc] Hd Hpos Hcap Hfresh.
  rewrite create_reservation_run, Hc, Hd.
  destruct (Z.leb_spec (HotelDict.available_rooms d) 0) as [?|_]; [lia|].
  rewrite cancel_reservation_run. cbn [reservations_file].
  rewrite lookup_insert_eq. cbn [ReservationDict.hotel_id].
  rewrite cancel_room_run. cbn [hotels_file]. rewrite lookup_insert_eq.
  destruct (Z.geb_spec
              (HotelDict.available_rooms
                 (HotelDict.set_available_rooms
                    (HotelDict.available_rooms d - 1) d))
              (HotelDict.total_rooms
                 (HotelDict.set_available_rooms
                    (HotelDict.available_rooms d - 1) d))) as [Hge|_].
  { destruct d; simpl in *; lia. }
  split; [done|]. split; [done|]. split; [done|].
  cbn [snd hotels_file reservations_file]. split.
  - rewrite insert_insert_eq, set_available_rooms_twice.
    rewrite set_available_rooms_same; [by apply insert_id|].
    destruct d; simpl; lia.
  - by apply delete_insert_id.
Qed.

Lemma create_then_cancel_restores_witness :
  files_unchanged demo_world
    (Reservation.cancel_reservation "0badcafe"
       (Reservation.create_reservation
          "C1" "H1" "2025-01-01" "2025-01-05" "0badcafe" demo_world).2).2.
Proof.
  assert (is_Some (customers_file demo_world !! "C1")) as Hc
    by (eexists; reflexivity).
  generalize (create_then_cancel_restores demo_world
                "C1" "H1" "2025-01-01" "2025-01-05" "0badcafe"
                (HotelDict.mk "H1" "Grand" "NYC" 5 5) Hc eq_refl eq_refl
                ltac:(simpl; lia) eq_refl).
  destruct (Reservation.create_reservation _ _ _ _ _ _) as [r w1].
  destruct (Reservation.cancel_reservation _ _) as [ok w2].
  intros (_ & _ & H). exact H.
Defined.

(** X10. When a hotel has more free rooms than rooms
    ([available_rooms > total_rooms], with a free room), a reservation
    created and cancelled right away costs a room: both calls succeed and
    the record is gone, but [Hotel.cancel_room] refuses to add the room
    back, so [available_rooms] stays one lower than before. *)
Theorem create_then_cancel_over_capacity (w : World)
    (customer_id hotel_id check_in check_out uuid8 : string)
    (d : HotelDict.t) :
  is_Some (customers_file w !! customer_id) →
  hotels_file w !! hotel_id = Some d →
  0 < HotelDict.available_rooms d →
  HotelDict.total_rooms d < HotelDict.available_rooms d →
  reservations_file w !! uuid8 = None →
  let (r, w1) :=
    Reservation.create_reservation
      customer_id hotel_id check_in check_out uuid8 w in
  let (ok, w2) := Reservation.cancel_reservation uuid8 w1 in
  is_not_None r = true ∧ ok = true
  ∧ reservations_file w2 = reservations_file w
  ∧ hotels_file w2 !! hotel_id
    = Some (HotelDict.set_available_rooms
              (HotelDict.available_rooms d - 1) d)
  ∧ printed [diagnostic (AlreadyFull hotel_id);
             "Reservation '" +:+ uuid8 +:+ "' cancelled successfully."]
            w1 w2.
Proof.
  intros [c Hc] Hd Hpos Hover Hfresh.
  rewrite create_reservation_run, Hc, Hd.
  destruct (Z.leb_spec (HotelDict.available_rooms d) 0) as [?|_]; [lia|].
  rewrite cancel_reservation_run. cbn [reservations_file].
  rewrite lookup_insert_eq. cbn [ReservationDict.hotel_id].
  rewrite cancel_room_run. cbn [hotels_file]. rewrite lookup_insert_eq.
  destruct (Z.geb_spec
              (HotelDict.available_rooms
                 (HotelDict.set_available_rooms
                    (HotelDict.available_rooms d - 1) d))
              (HotelDict.total_rooms
                 (HotelDict.set_available_rooms
                    (HotelDict.available_rooms d - 1) d))) as [_|Hlt].
  2: { destruct d; simpl in *; lia. }
  split; [done|]. split; [done|].
  cbn [snd hotels_file reservations_file print stdout].
  split; [by apply delete_insert_id|]. split; [apply lookup_insert_eq|].
  unfold printed. cbn [stdout]. by rewrite <- app_assoc.
Qed.

Lemma create_then_cancel_over_capacity_witness :
  hotels_file over_capacity_world !! "H3"
    = Some (HotelDict.mk "H3" "Odd" "Rome" 3 5)
  ∧ hotels_file
      (Reservation.cancel_reservation "0badcafe"
         (Reservation.create_reservation
            "C1" "H3" "2025-01-01" "2025-01-05" "0badcafe"
            over_capacity_world).2).2 !! "H3"
    = Some (HotelDict.mk "H3" "Odd" "Rome" 3 4).
Proof.
  split; [reflexivity|].
  assert (is_Some (customers_file over_capacity_world !! "C1")) as Hc
    by (eexists; reflexivity).
  generalize (create_then_cancel_over_capacity over_capacity_world
                "C1" "H3" "2025-01-01" "2025-01-05" "0badcafe"
                (HotelDict.mk "H3" "Odd" "Rome" 3 5) Hc eq_refl eq_refl
                ltac:(simpl; lia) eq_refl).
  destruct (Reservation.create_reservation _ _ _ _ _ _) as [r w1].
  destruct (Reservation.cancel_reservation _ _) as [ok w2].
  intros (_ & _ & _ & H & _). exact H.
Defined.

(** X11. A reservation is cancelled at most once: whatever the first
    [Reservation.cancel_reservation] of an id answers, a second one for
    the same id returns [False], reports the id as not found and changes
    no file, so no room is given back twice. *)
Theorem cancel_twice_fails (w : World) (reservation_id : string) :
  let (ok1, w1) := Reservation.cancel_reservation reservation_id w in
  let (ok2, w2) := Reservation.cancel_reservation reservation_id w1 in
  ok2 = false ∧ failed_with (Reservation_NotFound reservation_id) w1 w2.
Proof.
  rewrite cancel_reservation_run.
  destruct (reservations_file w !! reservation_id) as [r|] eqn:Hr.
  - cbv beta iota zeta. rewrite cancel_reservation_run.
    cbn [reservations_file].
    rewrite lookup_delete_eq. split; [done|apply failed_with_print].
  - cbv beta iota. rewrite cancel_reservation_run.
    cbn [print snd reservations_file].
    rewrite Hr. split; [done|apply failed_with_print].
Qed.

(** ** Reserving until the hotel is full *)

(** X12. [n] calls of [Hotel.reserve_room] in a row on a stored hotel
    with [a >= 0] free rooms leave it with [max(0, a - n)] free rooms:
    the calls beyond the [a]-th change nothing, so the count never goes
    below zero.  No other hotel, field or file changes. *)
Theorem repeated_reserve_room (n : nat) :
  ∀ (w : World) (hotel_id : string) (d : HotelDict.t),
    hotels_file w !! hotel_id = Some d →
    0 ≤ HotelDict.available_rooms d →
    let w' := run_ops (replicate n (Op_reserve_room hotel_id)) w in
    hotels_file w' !! hotel_id
    = Some (HotelDict.set_available_rooms
              (Z.max 0 (HotelDict.available_rooms d - Z.of_nat n)) d)
    ∧ (∀ j, j ≠ hotel_id → hotels_file w' !! j = hotels_file w !! j)
    ∧ customers_file w' = customers_file w
    ∧ reservations_file w' = reservations_file w.
Proof.
  induction n as [|n IH]; intros w hotel_id d Hd Hpos.
  - cbn [replicate run_ops]. cbv zeta. split; [|done].
    rewrite set_available_rooms_same; [done|lia].
  - cbn [replicate run_ops run_op]. unfold after.
    rewrite reserve_room_run, Hd.
    destruct (Z.leb_spec (HotelDict.available_rooms d) 0) as [Hle|Hgt].
    + destruct (IH (print (diagnostic (NoAvailability hotel_id)) w).2
                  hotel_id d Hd Hpos) as (Hh & Hj & Hc & Hr).
      cbv zeta. cbn [snd] in *. rewrite Hh.
      split; [f_equal; f_equal; lia|]. by split.
    + cbn [snd].
      set (d1 := HotelDict.set_available_rooms
                   (HotelDict.available_rooms d - 1) d).
      set (w1 := mkWorld _ _ _ _).
      assert (hotels_file w1 !! hotel_id = Some d1) as Hd1
        by apply lookup_insert_eq.
      assert (0 ≤ HotelDict.available_rooms d1) as Hpos1
        by (subst d1; destruct d; simpl in *; lia).
      destruct (IH w1 hotel_id d1 Hd1 Hpos1) as (Hh & Hj & Hc & Hr).
      cbv zeta. rewrite Hh. split; [|split; [|by split]].
      * subst d1. rewrite set_available_rooms_twice.
        f_equal; f_equal. destruct d; simpl; lia.
      * intros j Hne. rewrite (Hj j Hne). subst w1. cbn [hotels_file].
        by rewrite lookup_insert_ne.
Qed.

Lemma repeated_reserve_room_witness :
  hotels_file (run_ops (replicate 7 (Op_reserve_room "H1")) demo_world)
    !! "H1"
  = Some (HotelDict.mk "H1" "Grand" "NYC" 5 0).
Proof.
  destruct (repeated_reserve_room 7 demo_world "H1"
              (HotelDict.mk "H1" "Grand" "NYC" 5 5) eq_refl
              ltac:(simpl; lia)) as [H _].
  exact H.
Defined.

(** ** Changing a hotel or a customer *)

(** X13. A [modify_*] call on a stored id in which every argument is
    omitted or empty returns [True] and prints its success line, and the
    three files hold what they held before. *)
Theorem modify_without_arguments (w : World) (id : string) :
  (∀ name location,
     is_Some (hotels_file w !! id) → falsy name → falsy location →
     let (ok, w') := Hotel.modify_hotel id name location None w in
     ok = true ∧ files_unchanged w w'
     ∧ printed ["Hotel '" +:+ id +:+ "' modified successfully."] w w')
  ∧ (∀ name email phone,
       is_Some (customers_file w !! id) →
       falsy name → falsy email → falsy phone →
       let (ok, w') := Customer.modify_customer id name email phone w in
       ok = true ∧ files_unchanged w w'
       ∧ printed ["Customer '" +:+ id +:+ "' modified successfully."] w w').
Proof.
  split.
  - intros name location [d Hd] Hn Hl. rewrite modify_hotel_run, Hd.
    split; [done|]. split; [|done].
    split; [done|]. split; [|done]. cbn [hotels_file].
    apply insert_id. by destruct Hn as [-> | ->], Hl as [-> | ->].
  - intros name email phone [d Hd] Hn He Hp.
    rewrite modify_customer_run, Hd.
    split; [done|]. split; [|done].
    split; [|done]. cbn [customers_file].
    apply insert_id.
    by destruct Hn as [-> | ->], He as [-> | ->], Hp as [-> | ->].
Qed.

Lemma modify_without_arguments_witness :
  files_unchanged demo_world
    (Hotel.modify_hotel "H1" None (Some EmptyString) None demo_world).2
  ∧ files_unchanged demo_world
      (Customer.modify_customer "C1" (Some EmptyString) None None
         demo_world).2.
Proof.
  destruct (modify_without_arguments demo_world "H1") as [Hh _].
  destruct (modify_without_arguments demo_world "C1") as [_ Hc].
  assert (is_Some (hotels_file demo_world !! "H1")) as H1
    by (eexists; reflexivity).
  assert (is_Some (customers_file demo_world !! "C1")) as H2
    by (eexists; reflexivity).
  specialize (Hh None (Some EmptyString) H1 (or_introl eq_refl)
                (or_intror eq_refl)).
  specialize (Hc (Some EmptyString) None None H2 (or_intror eq_refl)
                (or_introl eq_refl) (or_introl eq_refl)).
  destruct (Hotel.modify_hotel _ _ _ _ _) as [ok1 w1].
  destruct (Customer.modify_customer _ _ _ _ _) as [ok2 w2].
  split; [apply Hh|apply Hc].
Defined.

(** X14. What [Hotel.modify_hotel] does to the rooms taken
    ([total_rooms - available_rooms]) of a stored hotel when given a new
    total: as long as [old_available + (new_total - old_total)] is not
    negative the rooms taken are the same before and after; otherwise
    [available_rooms] becomes [0] and the rooms taken become the new
    total, fewer than before.  The [name] and [location] arguments have
    no influence on the rooms, and the hotel's id does not change. *)
Theorem modify_hotel_rooms_taken (w : World) (hotel_id : string)
    (name location : option string) (new_total : Z) (d : HotelDict.t) :
  hotels_file w !! hotel_id = Some d →
  let taken := HotelDict.total_rooms d - HotelDict.available_rooms d in
  let shifted :=
    HotelDict.available_rooms d + (new_total - HotelDict.total_rooms d) in
  ∃ d', hotels_file
          (Hotel.modify_hotel hotel_id name location (Some new_total) w).2
          !! hotel_id = Some d'
        ∧ HotelDict.hotel_id d' = HotelDict.hotel_id d
        ∧ (0 ≤ shifted →
           HotelDict.total_rooms d' - HotelDict.available_rooms d' = taken)
        ∧ (shifted < 0 →
           HotelDict.available_rooms d' = 0
           ∧ HotelDict.total_rooms d' - HotelDict.available_rooms d'
             = new_total
           ∧ new_total < taken).
Proof.
  intros Hd. rewrite modify_hotel_run, Hd. cbn [snd hotels_file].
  eexists. split; [apply lookup_insert_eq|].
  destruct (assign_if_truthy_hotel_rooms name location d) as [Ht Ha].
  cbv zeta in Ht, Ha. simpl. rewrite Ht, Ha.
  split; [by destruct name as [[|? ?]|], location as [[|? ?]|]|].
  split; intros; lia.
Qed.

Lemma modify_hotel_rooms_taken_witness :
  ∃ d', hotels_file
          (Hotel.modify_hotel "H_FULL" None None (Some 4) demo_world).2
          !! "H_FULL" = Some d'
        ∧ HotelDict.total_rooms d' - HotelDict.available_rooms d' = 1.
Proof.
  destruct (modify_hotel_rooms_taken demo_world "H_FULL" None None 4
              (HotelDict.mk "H_FULL" "Tiny" "NYC" 1 0) eq_refl)
    as (d' & Hd' & _ & Hkeep & _).
  exists d'. split; [exact Hd'|]. apply Hkeep. simpl. lia.
Defined.

(** X15. Changing a stored hotel's [total_rooms] and changing it back
    restores the hotels file when the free rooms were not negative and
    the first change did not push them below zero; the other files are
    never touched. *)
Theorem modify_hotel_and_back (w : World) (hotel_id : string)
    (new_total : Z) (d : HotelDict.t) :
  hotels_file w !! hotel_id = Some d →
  0 ≤ HotelDict.available_rooms d →
  0 ≤ HotelDict.available_rooms d + (new_total - HotelDict.total_rooms d) →
  let w1 :=
    (Hotel.modify_hotel hotel_id None None (Some new_total) w).2 in
  let w2 :=
    (Hotel.modify_hotel hotel_id None None
       (Some (HotelDict.total_rooms d)) w1).2 in
  files_unchanged w w2.
Proof.
  intros Hd Hpos Hshift. cbv zeta.
  rewrite (modify_hotel_run w), Hd. cbn [snd].
  rewrite modify_hotel_run. cbn [hotels_file]. rewrite lookup_insert_eq.
  split; [done|]. split; [|done]. cbn [snd hotels_file].
  rewrite insert_insert_eq. apply insert_id. rewrite Hd. f_equal.
  destruct d as [i nm l t a]. simpl in *.
  unfold HotelDict.set_available_rooms, HotelDict.set_total_rooms. simpl.
  f_equal. lia.
Qed.

Lemma modify_hotel_and_back_witness :
  files_unchanged demo_world
    (Hotel.modify_hotel "H1" None None (Some 5)
       (Hotel.modify_hotel "H1" None None (Some 2) demo_world).2).2.
Proof.
  apply (modify_hotel_and_back demo_world "H1" 2
           (HotelDict.mk "H1" "Grand" "NYC" 5 5) eq_refl);
    simpl; lia.
Defined.

(** ** Sequences of operations: what each class may write *)

(** Rewrites a call into its outcomes and splits on them. *)
Ltac run_op_cases :=
  cbn [run_op reports_success]; unfold after;
  rewrite ?create_hotel_run, ?delete_hotel_run, ?display_hotel_run,
    ?modify_hotel_run, ?reserve_room_run, ?cancel_room_run,
    ?create_customer_run, ?delete_customer_run, ?display_customer_run,
    ?modify_customer_run,
    ?create_reservation_run, ?cancel_reservation_run,
    ?display_reservation_run;
  cbv zeta; repeat case_match;
  rewrite ?cancel_room_run in *; repeat case_match;
  cbn [fst snd print customers_file hotels_file reservations_file] in *.

Lemma run_op_frame (o : op) (w : World) :
  (store_of o ≠ CustomerStore →
     customers_file (run_op o w) = customers_file w)
  ∧ (store_of o = CustomerStore → hotels_file (run_op o w) = hotels_file w)
  ∧ (store_of o ≠ ReservationStore →
       reservations_file (run_op o w) = reservations_file w).
Proof.
  destruct o; run_op_cases; cbn [store_of];
    repeat split; intros; first [done | congruence].
Qed.

(** X16. Each class writes only its own file, except that the reservation
    operations also write the hotels file: over any sequence of public
    operations, the customers file is unchanged if no customer operation
    occurs, the reservations file is unchanged if no reservation
    operation occurs, and the hotels file is unchanged if only customer
    operations occur. *)
Theorem files_written_by_class (os : list op) :
  ∀ w : World,
    (Forall (λ o, store_of o ≠ CustomerStore) os →
       customers_file (run_ops os w) = customers_file w)
    ∧ (Forall (λ o, store_of o = CustomerStore) os →
         hotels_file (run_ops os w) = hotels_file w)
    ∧ (Forall (λ o, store_of o ≠ ReservationStore) os →
         reservations_file (run_ops os w) = reservations_file w).
Proof.
  induction os as [|o os IH]; intros w; [done|].
  cbn [run_ops].
  destruct (IH (run_op o w)) as (Hc & Hh & Hr).
  destruct (run_op_frame o w) as (Hc1 & Hh1 & Hr1).
  split; [|split]; intros Hall; apply Forall_cons in Hall as [Ho Hos].
  - by rewrite Hc, Hc1.
  - by rewrite Hh, Hh1.
  - by rewrite Hr, Hr1.
Qed.

Lemma files_written_by_class_witness :
  customers_file
    (run_ops [ Op_create_hotel "H2" "Plaza" "LA" 2;
               Op_create_reservation "C1" "H2" "a" "b" "aaaa0001";
               Op_delete_hotel "H1" ] demo_world)
  = customers_file demo_world.
Proof.
  apply files_written_by_class.
  repeat constructor; discriminate.
Defined.

(** X17. A public operation that reports failure ([None] or [False]) has
    written nothing: the three files are as before the call.  This holds
    for each of the thirteen operations and for every reason of
    failure. *)
Theorem failure_writes_nothing (o : op) (w : World) :
  reports_success o w = false → files_unchanged w (run_op o w).
Proof.
  destruct o; run_op_cases; intros Hfail; try discriminate;
    by repeat split.
Qed.

Lemma failure_writes_nothing_witness :
  files_unchanged demo_world
    (run_op (Op_create_reservation "C1" "H_FULL" "a" "b" "aaaa0001")
       demo_world)
  ∧ files_unchanged demo_world (run_op (Op_cancel_room "H1") demo_world).
Proof.
  split; apply failure_writes_nothing; reflexivity.
Defined.

(** ** Sequences of operations: invariants of the files *)

Lemma modified_hotel_id (name location : option string)
    (total_rooms : option Z) (d : HotelDict.t) :
  HotelDict.hotel_id
    (Hotel.apply_total_rooms total_rooms
       (assign_if_truthy HotelDict.set_location location
          (assign_if_truthy HotelDict.set_name name d)))
  = HotelDict.hotel_id d.
Proof.
  by destruct name as [[|? ?]|], location as [[|? ?]|], total_rooms.
Qed.

Lemma modified_customer_id (name email phone : option string)
    (d : CustomerDict.t) :
  CustomerDict.customer_id
    (assign_if_truthy CustomerDict.set_phone phone
       (assign_if_truthy CustomerDict.set_email email
          (assign_if_truthy CustomerDict.set_name name d)))
  = CustomerDict.customer_id d.
Proof.
  by destruct name as [[|? ?]|], email as [[|? ?]|], phone as [[|? ?]|].
Qed.

Lemma run_op_keys_match_ids (o : op) (w : World) :
  keys_match_ids w → keys_match_ids (run_op o w).
Proof.
  intros (Hc & Hh & Hr).
  destruct o; run_op_cases; repeat split;
    cbn [customers_file hotels_file reservations_file];
    try assumption;
    try (apply map_Forall_delete; assumption);
    apply map_Forall_insert_2; try assumption;
    rewrite ?modified_hotel_id, ?modified_customer_id;
    unfold HotelDict.set_available_rooms; cbn [HotelDict.hotel_id];
    try reflexivity;
    first [ eapply (map_Forall_lookup_1 _ _ _ _ Hh); eassumption
          | eapply (map_Forall_lookup_1 _ _ _ _ Hc); eassumption ].
Qed.

(** X18. Every dictionary stored by the program carries as its id the key
    it is stored under ([hotel_id], [customer_id], [reservation_id]):
    this holds of the empty files, and every public operation keeps it,
    so it holds after any sequence of operations. *)
Theorem keys_match_ids_invariant (os : list op) :
  ∀ w : World, keys_match_ids w → keys_match_ids (run_ops os w).
Proof.
  induction os as [|o os IH]; intros w Hinv; [done|].
  cbn [run_ops]. by apply IH, run_op_keys_match_ids.
Qed.

Lemma demo_world_keys_match_ids : keys_match_ids demo_world.
Proof.
  split; [|split].
  - by apply map_Forall_singleton.
  - apply map_Forall_insert_2; [done|]. by apply map_Forall_singleton.
  - by apply map_Forall_singleton.
Qed.

Lemma keys_match_ids_invariant_witness :
  keys_match_ids (run_ops busy_day demo_world).
Proof.
  apply keys_match_ids_invariant, demo_world_keys_match_ids.
Defined.

Lemma modified_hotel_bounds (name location : option string)
    (total_rooms : option Z) (d : HotelDict.t) :
  0 ≤ HotelDict.available_rooms d ≤ HotelDict.total_rooms d →
  match total_rooms with Some n => 0 ≤ n | None => True end →
  let d' := Hotel.apply_total_rooms total_rooms
              (assign_if_truthy HotelDict.set_location location
                 (assign_if_truthy HotelDict.set_name name d)) in
  0 ≤ HotelDict.available_rooms d' ≤ HotelDict.total_rooms d'.
Proof.
  intros Hd Hn.
  destruct (assign_if_truthy_hotel_rooms name location d) as [Ht Ha].
  cbv zeta in *. destruct total_rooms as [n|]; simpl.
  - rewrite Ht, Ha. lia.
  - by rewrite Ht, Ha.
Qed.

Lemma run_op_rooms_within_bounds (o : op) (w : World) :
  rooms_within_bounds w → total_rooms_arg_nonneg o →
  rooms_within_bounds (run_op o w).
Proof.
  unfold rooms_within_bounds, total_rooms_arg_nonneg. intros Hinv.
  destruct o; cbn [total_rooms_arg]; run_op_cases; intros Harg;
    try assumption;
    try (apply map_Forall_delete; assumption);
    apply map_Forall_insert_2; try assumption;
    repeat match goal with
      | H : hotels_file w !! _ = Some _ |- _ =>
          apply (map_Forall_lookup_1 _ _ _ _ Hinv) in H; cbv beta in H
      | H : (_ <=? _) = false |- _ => apply Z.leb_gt in H
      | H : (_ >=? _) = false |- _ => rewrite Z.geb_leb in H
      end;
    try (by apply modified_hotel_bounds);
    simpl; lia.
Qed.

(** X19. As long as no negative [total_rooms] is passed to
    [Hotel.create_hotel] or [Hotel.modify_hotel], every stored hotel has
    [0 <= available_rooms <= total_rooms] after any sequence of public
    operations that starts from files in which this holds (the empty
    files, for one): lowering [total_rooms] never leaves more free rooms
    than rooms, and no reservation or cancellation leaves the range. *)
Theorem rooms_within_bounds_invariant (os : list op) :
  ∀ w : World,
    rooms_within_bounds w →
    Forall total_rooms_arg_nonneg os →
    rooms_within_bounds (run_ops os w).
Proof.
  induction os as [|o os IH]; intros w Hinv Hargs; [done|].
  apply Forall_cons in Hargs as [Ho Hos].
  cbn [run_ops]. by apply IH; [apply run_op_rooms_within_bounds|].
Qed.

Lemma rooms_within_bounds_invariant_witness :
  rooms_within_bounds (run_ops busy_day demo_world).
Proof.
  apply rooms_within_bounds_invariant.
  - apply map_Forall_insert_2; [simpl; lia|].
    apply map_Forall_singleton. simpl. lia.
  - unfold busy_day, total_rooms_arg_nonneg.
    repeat constructor; simpl; lia.
Defined.

Lemma references_resolve_step (w w' : World) :
  references_resolve w →
  (∀ k, is_Some (customers_file w !! k) → is_Some (customers_file w' !! k)) →
  (∀ k, is_Some (hotels_file w !! k) → is_Some (hotels_file w' !! k)) →
  (∀ k r, reservations_file w' !! k = Some r →
          reservations_file w !! k = Some r
          ∨ (is_Some (customers_file w' !! ReservationDict.customer_id r)
             ∧ is_Some (hotels_file w' !! ReservationDict.hotel_id r))) →
  references_resolve w'.
Proof.
  intros Hinv Hc Hh Hr k r Hk.
  destruct (Hr k r Hk) as [Hold|Hnew]; [|done].
  destruct (Hinv k r Hold) as [? ?]. split; [by apply Hc|by apply Hh].
Qed.

Lemma run_op_references_resolve (o : op) (w : World) :
  is_delete o = false →
  references_resolve w → references_resolve (run_op o w).
Proof.
  intros Hdel Hinv.
  apply (references_resolve_step w); [done|..];
    destruct o; try discriminate Hdel; run_op_cases;
    intros k; intros;
    rewrite ?lookup_insert_is_Some';
    try (by auto);
    repeat match goal with
      | H : <[_:=_]> _ !! _ = Some _ |- _ =>
          apply lookup_insert_Some in H as [[<- <-]|[_ H]]
      | H : delete _ _ !! _ = Some _ |- _ =>
          apply lookup_delete_Some in H as [_ H]
      end;
    try (by left);
    right; cbn [ReservationDict.customer_id ReservationDict.hotel_id];
    split; [by eexists|by left].
Qed.

(** X20. Reservations never dangle unless something is deleted: over any
    sequence of public operations without [delete_hotel] and
    [delete_customer], if every stored reservation names a stored
    customer and a stored hotel at the start, the same holds at the
    end. *)
Theorem references_resolve_invariant (os : list op) :
  ∀ w : World,
    references_resolve w →
    Forall (λ o, is_delete o = false) os →
    references_resolve (run_ops os w).
Proof.
  induction os as [|o os IH]; intros w Hinv Hdel; [done|].
  apply Forall_cons in Hdel as [Ho Hos].
  cbn [run_ops]. by apply IH; [apply run_op_references_resolve|].
Qed.

Lemma references_resolve_invariant_witness :
  references_resolve (run_ops busy_day demo_world).
Proof.
  apply references_resolve_invariant.
  - apply map_Forall_singleton. split; eexists; reflexivity.
  - unfold busy_day. repeat constructor.
Defined.

(** ** No overbooking *)

Lemma run_call_same_hotel (h : string) (d : HotelDict.t) (c : call)
    (w : World) :
  same_hotel_free_rooms_nonneg d h w →
  same_hotel_free_rooms_nonneg d h (run_call c w).2.
Proof.
  intros (a & Ha & Hpos). unfold same_hotel_free_rooms_nonneg.
  destruct c as [cid hid ci co u|rid|cid n e p|cid|cid n e p];
    unfold run_call, mbind, IO_bind, mret, IO_ret.
  - rewrite create_reservation_run.
    destruct (customers_file w !! cid); [|by exists a].
    destruct (hotels_file w !! hid) as [d0|] eqn:Hd0; [|by exists a].
    destruct (Z.leb_spec (HotelDict.available_rooms d0) 0); [by exists a|].
    cbn [snd hotels_file].
    destruct (decide (hid = h)) as [->|Hne].
    + simplify_eq. rewrite lookup_insert_eq, set_available_rooms_twice.
      eexists. split; [done|]. destruct d; simpl in *. lia.
    + exists a. by rewrite lookup_insert_ne.
  - rewrite cancel_reservation_run.
    destruct (reservations_file w !! rid) as [r|]; [|by exists a].
    cbv zeta. cbn [snd hotels_file]. rewrite cancel_room_run.
    destruct (hotels_file w !! ReservationDict.hotel_id r) as [d0|] eqn:Hd0;
      [|by exists a].
    destruct (Z.geb_spec (HotelDict.available_rooms d0)
                (HotelDict.total_rooms d0)); [by exists a|].
    cbn [snd hotels_file].
    destruct (decide (ReservationDict.hotel_id r = h)) as [Heq|Hne].
    + rewrite Heq in *. simplify_eq.
      rewrite lookup_insert_eq, set_available_rooms_twice.
      eexists. split; [done|]. destruct d; simpl in *. lia.
    + exists a. by rewrite lookup_insert_ne.
  - rewrite create_customer_run.
    destruct (customers_file w !! cid); by exists a.
  - rewrite delete_customer_run.
    destruct (customers_file w !! cid); by exists a.
  - rewrite modify_customer_run.
    destruct (customers_file w !! cid); by exists a.
Qed.

Lemma run_calls_same_hotel (h : string) (d : HotelDict.t) (cs : list call) :
  ∀ w w',
    same_hotel_free_rooms_nonneg d h w →
    run_calls cs w = Some w' →
    same_hotel_free_rooms_nonneg d h w'.
Proof.
  induction cs as [|c cs IH]; intros w w' Hinv Hrun.
  - simpl in Hrun. by injection Hrun as <-.
  - simpl in Hrun.
    pose proof (run_call_same_hotel h d c w Hinv) as Hstep.
    destruct (run_call c w) as [ok w1].
    destruct (is_reservation_call c && negb ok); [done|].
    by apply (IH w1 w').
Qed.

(** X21. The reservation protocol never overbooks.  Take a hotel with
    [total_rooms >= 0], all rooms free and no reservation record, and run
    reservation creations and cancellations that all succeed (customer
    operations in between), each new identifier being unused when drawn.
    Afterwards the hotel's dictionary is the initial one up to
    [available_rooms], which lies between [0] and [total_rooms], and the
    number of live reservations for the hotel is
    [total_rooms - available_rooms], hence at most [total_rooms]. *)
Theorem protocol_never_overbooks (hotel_id : string) (d : HotelDict.t)
    (cs : list call) (w w' : World) :
  hotel_untouched hotel_id w →
  hotels_file w !! hotel_id = Some d →
  0 ≤ HotelDict.total_rooms d →
  ids_fresh cs w →
  run_calls cs w = Some w' →
  ∃ a, hotels_file w' !! hotel_id
       = Some (HotelDict.set_available_rooms a d)
       ∧ 0 ≤ a ≤ HotelDict.total_rooms d
       ∧ Z.of_nat (live_reservations hotel_id w')
         = HotelDict.total_rooms d - a
       ∧ Z.of_nat (live_reservations hotel_id w') ≤ HotelDict.total_rooms d.
Proof.
  intros Hstart Hd Htotal Hfresh Hrun.
  assert (same_hotel_free_rooms_nonneg d hotel_id w) as Hsame.
  { destruct Hstart as [(d0 & Hd0 & Hfree) _]. simplify_eq.
    exists (HotelDict.available_rooms d0).
    rewrite set_available_rooms_same by done. split; [done|lia]. }
  destruct (run_calls_same_hotel hotel_id d cs w w' Hsame Hrun)
    as (a & Ha & Hpos).
  destruct (run_calls_preserve_match hotel_id cs w w'
              (hotel_untouched_match hotel_id w Hstart) Hfresh Hrun)
    as (d' & Hd' & Hmatch).
  rewrite Ha in Hd'. injection Hd' as <-.
  exists a. split; [done|]. destruct d; simpl in *. lia.
Qed.

Lemma protocol_never_overbooks_witness :
  ∃ w', run_calls book_book_cancel fixture_world = Some w'
        ∧ Z.of_nat (live_reservations "H1" w') ≤ 5.
Proof.
  eexists. split; [vm_compute; reflexivity|].
  assert (hotel_untouched "H1" fixture_world) as Hstart.
  { split.
    - exists (HotelDict.mk "H1" "Grand" "NYC" 5 5). split; reflexivity.
    - intros rid r Hr. vm_compute in Hr. discriminate. }
  assert (ids_fresh book_book_cancel fixture_world) as Hfresh.
  { vm_compute. repeat split. }
  destruct (protocol_never_overbooks "H1"
              (HotelDict.mk "H1" "Grand" "NYC" 5 5)
              book_book_cancel fixture_world _ Hstart eq_refl
              ltac:(simpl; lia) Hfresh
              ltac:(vm_compute; reflexivity))
    as (a & _ & _ & _ & Hle).
  exact Hle.
Defined.

(** ** Editing a hotel, and what reservations leave alone *)

(** X22. [Hotel.modify_hotel] on a stored hotel, without a [total_rooms]
    argument, returns [True] and rewrites [name] and [location] exactly
    when their argument is a non-empty string; an omitted or empty
    argument keeps the field.  The hotel's id and both room counts, every
    other hotel and the two other files are unchanged. *)
Theorem modify_hotel_name_location (w : World) (hotel_id : string)
    (name location : option string) (d : HotelDict.t) :
  hotels_file w !! hotel_id = Some d →
  let (ok, w') := Hotel.modify_hotel hotel_id name location None w in
  ok = true
  ∧ customers_file w' = customers_file w
  ∧ reservations_file w' = reservations_file w
  ∧ (∀ j, j ≠ hotel_id → hotels_file w' !! j = hotels_file w !! j)
  ∧ ∃ d', hotels_file w' !! hotel_id = Some d'
          ∧ HotelDict.hotel_id d' = HotelDict.hotel_id d
          ∧ HotelDict.total_rooms d' = HotelDict.total_rooms d
          ∧ HotelDict.available_rooms d' = HotelDict.available_rooms d
          ∧ field_updated name (HotelDict.name d) (HotelDict.name d')
          ∧ field_updated location (HotelDict.location d)
                          (HotelDict.location d').
Proof.
  intros Hd. rewrite modify_hotel_run, Hd.
  cbn [customers_file hotels_file reservations_file].
  split; [done|]. split; [done|]. split; [done|].
  split; [intros j Hj; by rewrite lookup_insert_ne|].
  eexists. split; [by rewrite lookup_insert_eq|].
  pose proof (assign_if_truthy_updated HotelDict.set_name HotelDict.name
                name d (λ _ _, eq_refl)) as Hn.
  pose proof (assign_if_truthy_updated HotelDict.set_location
                HotelDict.location location
                (assign_if_truthy HotelDict.set_name name d)
                (λ _ _, eq_refl)) as Hl.
  destruct name as [[|? ?]|], location as [[|? ?]|]; simpl in *; done.
Qed.

Lemma modify_hotel_name_location_witness :
  hotels_file
    (Hotel.modify_hotel "H1" (Some "Grand Plaza") (Some EmptyString) None
       demo_world).2 !! "H1"
  = Some (HotelDict.mk "H1" "Grand Plaza" "NYC" 5 5).
Proof.
  generalize (modify_hotel_name_location demo_world "H1"
                (Some "Grand Plaza") (Some EmptyString)
                (HotelDict.mk "H1" "Grand" "NYC" 5 5) eq_refl).
  destruct (Hotel.modify_hotel _ _ _ _ _) as [ok w'].
  intros (_ & _ & _ & _ & d' & Hd' & Hid & Ht & Ha & (Hn & _) & (_ & _ & Hl)).
  simpl. rewrite Hd'. f_equal. destruct d' as [i n l t a]. simpl in *.
  rewrite Hid, Ht, Ha, (Hn "Grand Plaza" eq_refl), (Hl eq_refl);
    [reflexivity|discriminate].
Defined.

Lemma same_hotels_refl (m : gmap string HotelDict.t) :
  same_hotels_up_to_free_rooms m m.
Proof.
  intros k. destruct (m !! k) as [d|]; [|done].
  exists (HotelDict.available_rooms d).
  by rewrite set_available_rooms_same.
Qed.

Lemma same_hotels_trans (m1 m2 m3 : gmap string HotelDict.t) :
  same_hotels_up_to_free_rooms m1 m2 →
  same_hotels_up_to_free_rooms m2 m3 →
  same_hotels_up_to_free_rooms m1 m3.
Proof.
  intros H12 H23 k. specialize (H12 k). specialize (H23 k).
  destruct (m1 !! k), (m2 !! k), (m3 !! k); try done.
  destruct H12 as [a ->], H23 as [b ->]. exists b.
  apply set_available_rooms_twice.
Qed.

Lemma same_hotels_insert (m : gmap string HotelDict.t) (k : string)
    (d : HotelDict.t) (a : Z) :
  m !! k = Some d →
  same_hotels_up_to_free_rooms m
    (<[k := HotelDict.set_available_rooms a d]> m).
Proof.
  intros Hk j. destruct (decide (k = j)) as [<-|Hne].
  - rewrite lookup_insert_eq, Hk. by exists a.
  - rewrite lookup_insert_ne by done. apply same_hotels_refl.
Qed.

Lemma run_op_same_hotels (o : op) (w : World) :
  is_hotel_admin o = false →
  same_hotels_up_to_free_rooms (hotels_file w) (hotels_file (run_op o w)).
Proof.
  intros Hadmin.
  destruct o; try discriminate Hadmin; run_op_cases;
    first [ apply same_hotels_refl | by apply same_hotels_insert ].
Qed.

(** X23. Reservation traffic changes nothing of a hotel but its
    [available_rooms]: over any sequence of public operations without
    [create_hotel], [delete_hotel] and [modify_hotel], the hotels file
    keeps the same keys, and each hotel keeps its id, name, location and
    [total_rooms]. *)
Theorem only_free_rooms_change (os : list op) :
  ∀ w : World,
    Forall (λ o, is_hotel_admin o = false) os →
    same_hotels_up_to_free_rooms (hotels_file w) (hotels_file (run_ops os w)).
Proof.
  induction os as [|o os IH]; intros w Hall.
  - apply same_hotels_refl.
  - apply Forall_cons in Hall as [Ho Hos]. cbn [run_ops].
    eapply same_hotels_trans; [by apply run_op_same_hotels|by apply IH].
Qed.

Lemma only_free_rooms_change_witness :
  same_hotels_up_to_free_rooms (hotels_file demo_world)
    (hotels_file
       (run_ops [ Op_create_reservation "C1" "H1" "a" "b" "aaaa0001";
                  Op_cancel_reservation "1a2b3c4d";
                  Op_reserve_room "H1";
                  Op_delete_customer "C1" ] demo_world)).
Proof.
  apply only_free_rooms_change. repeat constructor.
Defined.
